(** * django-s3direct, [s3direct/utils.py]: signing keys, object keys,
      credential resolution and presigned URLs.

    A shallow embedding of the module and the properties its
    specification states about it.

    Conventions of the embedding.
    - A Python [str] is a Rocq [string] holding its UTF-8 bytes, so that
      [s.encode("utf-8")] is the list of bytes of [s].  The only character
      the module inspects is "/" (one byte in UTF-8, and never part of a
      multi-byte sequence), so stripping and comparing are unaffected.
    - A Python [bytes] is a [list byte].
    - Dynamically typed values are [pyval]; a [dict] with string keys or an
      object read with [getattr] is a [gmap string pyval].
    - A call that can raise returns an [outcome]. *)

From Stdlib Require Import ZArith List Strings.String Strings.Ascii Strings.Byte DecimalString Lia Bool.
From stdpp Require Import gmap strings.
Import ListNotations.

Set Warnings "-register-all".

(** ** SHA-256 (FIPS 180-4) and HMAC (RFC 2104)

    [hashlib.sha256] and [hmac.new] belong to the Python standard library;
    they are modelled from their standards, on 32-bit words held in [Z]. *)

Module SHA256.
Local Open Scope Z_scope.

Definition mask32 : Z := 0xFFFFFFFF.

Definition add32 (a b : Z) : Z := (a + b) mod 2 ^ 32.

Definition rotr (n x : Z) : Z :=
  Z.lor (Z.shiftr x n) (Z.land (Z.shiftl x (32 - n)) mask32).

Definition shr (n x : Z) : Z := Z.shiftr x n.

Definition not32 (x : Z) : Z := Z.lxor x mask32.

Definition Ch (x y z : Z) : Z :=
  Z.lxor (Z.land x y) (Z.land (not32 x) z).

Definition Maj (x y z : Z) : Z :=
  Z.lxor (Z.lxor (Z.land x y) (Z.land x z)) (Z.land y z).

Definition Sigma0 (x : Z) : Z :=
  Z.lxor (Z.lxor (rotr 2 x) (rotr 13 x)) (rotr 22 x).

Definition Sigma1 (x : Z) : Z :=
  Z.lxor (Z.lxor (rotr 6 x) (rotr 11 x)) (rotr 25 x).

Definition sigma0 (x : Z) : Z :=
  Z.lxor (Z.lxor (rotr 7 x) (rotr 18 x)) (shr 3 x).

Definition sigma1 (x : Z) : Z :=
  Z.lxor (Z.lxor (rotr 17 x) (rotr 19 x)) (shr 10 x).

(** The constants, as the standard defines them: the first 32 bits of the
    fractional parts of the cube roots of the first sixty-four primes, and
    (for the initial hash value) of the square roots of the first eight. *)
Definition is_prime (n : nat) : bool :=
  forallb (fun d => negb (Nat.eqb (Nat.modulo n d) 0)) (seq 2 (n - 2)).

Definition primes : list Z :=
  map Z.of_nat (firstn 64 (filter is_prime (seq 2 400))).

(** The integer cube root, one bit at a time from bit [bits - 1] down. *)
Fixpoint cube_root (n : Z) (bits : nat) (r : Z) : Z :=
  match bits with
  | O => r
  | S b =>
      let c := r + 2 ^ Z.of_nat b in
      cube_root n b (if c * c * c <=? n then c else r)
  end.

Definition K : list Z :=
  Eval vm_compute in
    map (fun p => cube_root (p * 2 ^ 96) 36 0 mod 2 ^ 32) primes.

(** The eight working variables, and the chaining value between blocks. *)
Definition state : Type := (Z * Z * Z * Z * Z * Z * Z * Z)%type.

Definition fraction_of_sqrt (p : Z) : Z := Z.sqrt (p * 2 ^ 64) mod 2 ^ 32.

Definition H0 : state :=
  Eval vm_compute in
    (fraction_of_sqrt 2, fraction_of_sqrt 3, fraction_of_sqrt 5,
     fraction_of_sqrt 7, fraction_of_sqrt 11, fraction_of_sqrt 13,
     fraction_of_sqrt 17, fraction_of_sqrt 19).

Definition byte_of_Z (z : Z) : byte :=
  match Byte.of_N (Z.to_N (z mod 256)) with
  | Some b => b
  | None => x00
  end.

Definition Z_of_byte (b : byte) : Z := Z.of_N (Byte.to_N b).

(** Big-endian conversions between a 32-bit word and its four bytes. *)
Definition word_bytes (w : Z) : list byte :=
  [byte_of_Z (Z.shiftr w 24); byte_of_Z (Z.shiftr w 16);
   byte_of_Z (Z.shiftr w 8); byte_of_Z w].

Fixpoint be_Z (bs : list byte) (acc : Z) : Z :=
  match bs with
  | [] => acc
  | b :: bs' => be_Z bs' (Z.lor (Z.shiftl acc 8) (Z_of_byte b))
  end.

Fixpoint words (n : nat) (bs : list byte) : list Z :=
  match n with
  | O => []
  | S n' => be_Z (firstn 4 bs) 0 :: words n' (skipn 4 bs)
  end.

(** Message schedule: [w] is the window of the last sixteen words. *)
Definition next_word (w : list Z) : Z :=
  add32 (add32 (add32 (sigma1 (nth 14 w 0)) (nth 9 w 0))
               (sigma0 (nth 1 w 0)))
        (nth 0 w 0).

Fixpoint schedule (n : nat) (w : list Z) : list Z :=
  match n with
  | O => []
  | S n' => nth 0 w 0 :: schedule n' (tl w ++ [next_word w])
  end.

Definition round (s : state) (kw : Z * Z) : state :=
  let '(a, b, c, d, e, f, g, h) := s in
  let T1 := add32 (add32 (add32 (add32 h (Sigma1 e)) (Ch e f g)) (fst kw))
                  (snd kw) in
  let T2 := add32 (Sigma0 a) (Maj a b c) in
  (add32 T1 T2, a, b, c, add32 d T1, e, f, g).

Definition compress (s : state) (block : list byte) : state :=
  let W := schedule 64 (words 16 block) in
  let '(a, b, c, d, e, f, g, h) := fold_left round (combine K W) s in
  let '(a0, b0, c0, d0, e0, f0, g0, h0) := s in
  (add32 a0 a, add32 b0 b, add32 c0 c, add32 d0 d,
   add32 e0 e, add32 f0 f, add32 g0 g, add32 h0 h).

(** Padding: a 1 bit, zeros, and the bit length on 64 bits. *)
Definition pad (msg : list byte) : list byte :=
  let len := Z.of_nat (length msg) in
  let bits := 8 * len in
  msg ++ [x80] ++ repeat x00 (Z.to_nat ((55 - len) mod 64))
      ++ word_bytes (Z.shiftr bits 32) ++ word_bytes bits.

Fixpoint blocks (n : nat) (bs : list byte) : list (list byte) :=
  match n with
  | O => []
  | S n' => firstn 64 bs :: blocks n' (skipn 64 bs)
  end.

Definition digest_of (s : state) : list byte :=
  let '(a, b, c, d, e, f, g, h) := s in
  word_bytes a ++ word_bytes b ++ word_bytes c ++ word_bytes d ++
  word_bytes e ++ word_bytes f ++ word_bytes g ++ word_bytes h.

Definition sha256 (msg : list byte) : list byte :=
  let p := pad msg in
  digest_of (fold_left compress (blocks (length p / 64) p) H0).

Definition block_size : nat := 64.

Definition xor_byte (c : Z) (b : byte) : byte :=
  byte_of_Z (Z.lxor c (Z_of_byte b)).

Definition hmac_sha256 (key msg : list byte) : list byte :=
  let k0 := if (block_size <? length key)%nat then sha256 key else key in
  let k := k0 ++ repeat x00 (block_size - length k0) in
  sha256 (map (xor_byte 0x5c) k ++ sha256 (map (xor_byte 0x36) k ++ msg)).

Definition hex_digit (n : Z) : ascii :=
  nth (Z.to_nat n)
      (list_ascii_of_string "0123456789abcdef") "0"%char.

Fixpoint hex (bs : list byte) : string :=
  match bs with
  | [] => EmptyString
  | b :: bs' =>
      String (hex_digit (Z_of_byte b / 16))
             (String (hex_digit (Z_of_byte b mod 16)) (hex bs'))
  end.

End SHA256.

(** ** Python values and exceptions *)

Inductive pyval : Type :=
| PNone
| PBool (b : bool)
| PInt (n : Z)
| PStr (s : string)
| PList (l : list pyval)
| PDict (d : gmap string pyval).

(** [bool(v)]: [None], [False], zero and empty containers are false. *)
Definition truthy (v : pyval) : bool :=
  match v with
  | PNone => false
  | PBool b => b
  | PInt n => negb (n =? 0)%Z
  | PStr s => negb (String.eqb s "")
  | PList l => negb (Nat.eqb (length l) 0)
  | PDict d => negb (Nat.eqb (size d) 0)
  end.

Definition type_name (v : pyval) : string :=
  match v with
  | PNone => "NoneType"
  | PBool _ => "bool"
  | PInt _ => "int"
  | PStr _ => "str"
  | PList _ => "list"
  | PDict _ => "dict"
  end.

Inductive exn : Type :=
| AttributeError (type attr : string)
    (* 'type' object has no attribute 'attr' *)
| External (name : string).
    (* raised inside a callee that is not part of this module *)

Inductive outcome (A : Type) : Type :=
| Returns (a : A)
| Raises (e : exn).
Arguments Returns {A} a.
Arguments Raises {A} e.

#[global] Instance outcome_ret : MRet outcome := fun A a => Returns a.
#[global] Instance outcome_bind : MBind outcome := fun A B k m =>
  match m with
  | Returns a => k a
  | Raises e => Raises e
  end.

(** [getattr(obj, name, dflt)] on an object with the attributes [obj]. *)
Definition getattr (obj : gmap string pyval) (name : string) (dflt : pyval)
  : pyval :=
  default dflt (obj !! name).

(** [obj.get(k, dflt)]: only a dict has the method; a key bound to [None]
    is present, and [None] is what is returned for it. *)
Definition py_get (obj : pyval) (k : string) (dflt : pyval) : outcome pyval :=
  match obj with
  | PDict d => Returns (default dflt (d !! k))
  | _ => Raises (AttributeError (type_name obj) "get")
  end.

(** [v == s] for a string literal [s]: only an equal [str] compares equal. *)
Definition py_eq_str (v : pyval) (s : string) : bool :=
  match v with
  | PStr s' => String.eqb s' s
  | _ => false
  end.

(** ** Strings: [str.strip(chars)] *)

Definition char_in (c : ascii) (chars : string) : bool :=
  existsb (Ascii.eqb c) (list_ascii_of_string chars).

Fixpoint lstrip (chars s : string) : string :=
  match s with
  | EmptyString => EmptyString
  | String c s' => if char_in c chars then lstrip chars s' else s
  end.

Fixpoint rstrip (chars s : string) : string :=
  match s with
  | EmptyString => EmptyString
  | String c s' =>
      match rstrip chars s' with
      | EmptyString =>
          if char_in c chars then EmptyString else String c EmptyString
      | r => String c r
      end
  end.

Definition strip (chars s : string) : string := rstrip chars (lstrip chars s).

(** [key.strip("/")]: only a [str] has the method. *)
Definition py_strip (obj : pyval) (chars : string) : outcome string :=
  match obj with
  | PStr s => Returns (strip chars s)
  | _ => Raises (AttributeError (type_name obj) "strip")
  end.

(** ** Dates: [signing_date.strftime(fmt)]

    A [datetime.date] has [1 <= year <= 9999], a month in 1..12 and a day
    in 1..31.  Of the format directives only those for the numeric year,
    month and day (and the literal percent sign) are modelled.  The month
    and the day are written with two digits.  The year is written as the
    C library writes it: with the GNU C library, which CPython calls on
    Linux, that is the decimal number with no leading zeros, so four
    digits only from the year 1000 on.  Any other directive is left in
    the output as it stands. *)

Record date : Type := { year : Z; month : Z; day : Z }.

Definition valid_date (d : date) : Prop :=
  (1 <= year d <= 9999)%Z /\ (1 <= month d <= 12)%Z /\ (1 <= day d <= 31)%Z.

Definition decimal (n : Z) : string := NilZero.string_of_int (Z.to_int n).

Definition zfill (width : nat) (s : string) : string :=
  string_of_list_ascii (repeat "0"%char (width - String.length s)) +:+ s.

Definition directive (c : ascii) (d : date) : string :=
  match c with
  | "Y"%char => decimal (year d)
  | "m"%char => zfill 2 (decimal (month d))
  | "d"%char => zfill 2 (decimal (day d))
  | "%"%char => "%"
  | _ => String "%" (String c EmptyString)
  end.

Fixpoint strftime (fmt : string) (d : date) : string :=
  match fmt with
  | EmptyString => EmptyString
  | String "%" (String c rest) => directive c d +:+ strftime rest d
  | String c rest => String c (strftime rest d)
  end.

(** ** The signer (utils.py, lines 29-43) *)

Definition encode_utf8 (s : string) : list byte := list_byte_of_string s.

Definition sign (key : list byte) (message : string) : list byte :=
  SHA256.hmac_sha256 key (encode_utf8 message).

Definition get_aws_v4_signing_key
    (key : string) (signing_date : date) (region service : string)
  : list byte :=
  let datestamp := strftime "%Y%m%d" signing_date in
  let date_key := sign (encode_utf8 ("AWS4" +:+ key)) datestamp in
  let k_region := sign date_key region in
  let k_service := sign k_region service in
  let k_signing := sign k_service "aws4_request" in
  k_signing.

Definition get_aws_v4_signature (key : list byte) (message : string) : string :=
  SHA256.hex (SHA256.hmac_sha256 key (encode_utf8 message)).

(** The derivation as the specification words it: HMAC-SHA256 keyed with
    the bytes of "AWS4" followed by those of the secret, over the date
    written with eight digits YYYYMMDD; then over the region, the service
    and the literal "aws4_request". *)

Definition digit (n : Z) : ascii :=
  ascii_of_nat (48 + Z.to_nat (n mod 10)).

Definition YYYYMMDD (d : date) : string :=
  string_of_list_ascii
    [digit (year d / 1000); digit (year d / 100); digit (year d / 10);
     digit (year d);
     digit (month d / 10); digit (month d);
     digit (day d / 10); digit (day d)].

Definition deriveSigningKey_spec
    (K : string) (D : date) (R S : string) : list byte :=
  let dateKey :=
    SHA256.hmac_sha256 (list_byte_of_string "AWS4" ++ list_byte_of_string K)
                       (list_byte_of_string (YYYYMMDD D)) in
  let regionKey := SHA256.hmac_sha256 dateKey (list_byte_of_string R) in
  let serviceKey := SHA256.hmac_sha256 regionKey (list_byte_of_string S) in
  SHA256.hmac_sha256 serviceKey (list_byte_of_string "aws4_request").

(** ** The object key (utils.py, lines 46-59)

    [key] is either a callable, taking positional arguments, or a plain
    value ([hasattr(key, "__call__")] is false of every [pyval]). *)

Inductive key_strategy : Type :=
| KeyCallable (f : list pyval -> outcome pyval)
| KeyValue (v : pyval).

Definition get_key (key : key_strategy) (file_name : string) (dest : pyval)
  : outcome pyval :=
  match key with
  | KeyCallable f =>
      let fn_args := [PStr file_name] in
      args ← py_get dest "key_args" PNone;
      let fn_args := if truthy args then fn_args ++ [args] else fn_args in
      f fn_args
  | KeyValue k =>
      if py_eq_str k "/" then Returns (PStr file_name)
      else
        stripped ← py_strip k "/";
        Returns (PStr (stripped +:+ "/" +:+ file_name))
  end.

(** ** Credentials (utils.py, lines 11-14 and 62-78)

    [SESSION] is the module-level botocore session, or [None].  Neither a
    session nor a credentials object defines [__bool__] or [__len__], so
    each is true whenever it is not [None].  [get_credentials] may return
    a credentials object or [None], or raise.  Reading [token],
    [secret_key] or [access_key] of a credentials object may raise too:
    on botocore's refreshable credentials they are properties that
    refresh first. *)

Record AWSCredentials_t : Type :=
  AWSCredentials { token : pyval; secret_key : pyval; access_key : pyval }.

Module botocore.
Record Credentials : Type :=
  { token : outcome pyval;
    secret_key : outcome pyval;
    access_key : outcome pyval }.
Record Session : Type :=
  { get_credentials : outcome (option Credentials) }.
End botocore.

Definition get_aws_credentials
    (settings : gmap string pyval) (SESSION : option botocore.Session)
  : outcome AWSCredentials_t :=
  let access_key := getattr settings "AWS_ACCESS_KEY_ID" PNone in
  let secret_key := getattr settings "AWS_SECRET_ACCESS_KEY" PNone in
  if truthy access_key && truthy secret_key then
    Returns (AWSCredentials PNone secret_key access_key)
  else
    match SESSION with
    | None => Returns (AWSCredentials PNone PNone PNone)
    | Some session =>
        creds ← botocore.get_credentials session;
        match creds with
        | Some creds =>
            token ← botocore.token creds;
            secret_key ← botocore.secret_key creds;
            access_key ← botocore.access_key creds;
            Returns (AWSCredentials token secret_key access_key)
        | None => Returns (AWSCredentials PNone PNone PNone)
        end
    end.

(** ** The presigned URL (utils.py, lines 17-22 and 81-137)

    [boto3.client] and the client's [generate_presigned_url] are the
    storage provider.  What they return, or raise, is left open
    ([Variable]s below); the calls made to them are recorded, in order,
    next to the result. *)

Record ClientArgs : Type := {
  service_name : string;
  endpoint_url : pyval;
  region_name : pyval;
  signature_version : string;          (* config=Config(signature_version=..) *)
  credentials : gmap string pyval      (* **authentication *)
}.

Record PresignArgs : Type := {
  ClientMethod : string;
  Bucket : pyval;                      (* Params["Bucket"] *)
  Key : pyval;                         (* Params["Key"] *)
  ExpiresIn : Z
}.

Inductive call : Type :=
| Boto3Client (a : ClientArgs)
| GeneratePresignedUrl (p : PresignArgs).

(** A computation that calls the provider: the calls made and the outcome. *)
Definition io (A : Type) : Type := (list call * outcome A)%type.

#[global] Instance io_ret : MRet io := fun A a => ([], Returns a).
#[global] Instance io_bind : MBind io := fun A B k m =>
  match m with
  | (t, Returns a) => let '(t', r) := k a in (t ++ t', r)
  | (t, Raises e) => (t, Raises e)
  end.

Definition lift {A : Type} (m : outcome A) : io A := ([], m).

Definition calls {A : Type} (m : io A) : list call := fst m.
Definition result {A : Type} (m : io A) : outcome A := snd m.

Definition get_s3direct_destinations (settings : gmap string pyval) : pyval :=
  getattr settings "S3DIRECT_DESTINATIONS" PNone.

Section Provider.

Variable S3Client : Type.
Variable boto3_client : ClientArgs -> outcome S3Client.
Variable generate_presigned_url : S3Client -> PresignArgs -> outcome string.

Definition call_client (a : ClientArgs) : io S3Client :=
  ([Boto3Client a], boto3_client a).

Definition call_presign (c : S3Client) (p : PresignArgs) : io string :=
  ([GeneratePresignedUrl p], generate_presigned_url c p).

Definition get_presigned_url
    (settings : gmap string pyval)
    (dest : string) (key : pyval) (expires_in : Z) (method_name : string)
    (is_oracle : bool) : io string :=
  dest ← lift (py_get (get_s3direct_destinations settings) dest PNone);

  let aws_access_key_id := getattr settings "AWS_ACCESS_KEY_ID" PNone in
  let aws_secret_access_key :=
    getattr settings "AWS_SECRET_ACCESS_KEY" PNone in
  bucket ← lift (py_get dest "bucket"
                   (getattr settings "AWS_STORAGE_BUCKET_NAME" PNone));

  region ← lift (py_get dest "region"
                   (getattr settings "AWS_S3_REGION_NAME" PNone));
  endpoint ← lift (py_get dest "endpoint"
                     (getattr settings "AWS_S3_ENDPOINT_URL" PNone));

  let authentication : gmap string pyval := ∅ in
  '(region, endpoint, authentication) ←
    (if is_oracle then
       let authentication :=
         if truthy aws_access_key_id && truthy aws_secret_access_key then
           {[ "aws_access_key_id" := aws_access_key_id;
              "aws_secret_access_key" := aws_secret_access_key ]}
         else authentication in
       mret (region, endpoint, authentication)
     else
       region ← lift (py_get dest "region"
                 (getattr settings "ORIGINAL_AWS_S3_REGION_NAME" PNone));
       endpoint ← lift (py_get dest "endpoint"
                 (getattr settings "ORIGINAL_AWS_S3_ENDPOINT_URL" PNone));

       let aws_access_key_id :=
         getattr settings "ORIGINAL_AWS_ACCESS_KEY_ID" PNone in
       let aws_secret_access_key :=
         getattr settings "ORIGINAL_SECRET_ACCESS_KEY" PNone in

       let authentication :=
         if truthy aws_access_key_id && truthy aws_secret_access_key then
           {[ "aws_access_key_id" := aws_access_key_id;
              "aws_secret_access_key" := aws_secret_access_key ]}
         else authentication in
       mret (region, endpoint, authentication));

  s3_client ← call_client
    {| service_name := "s3";
       endpoint_url := endpoint;
       region_name := region;
       signature_version := "s3v4";
       credentials := authentication |};
  response ← call_presign s3_client
    {| ClientMethod := method_name;
       Bucket := bucket;
       Key := key;
       ExpiresIn := expires_in |};

  mret response.

End Provider.

(** A provider for the examples: every client is built (a client is the
    arguments it was built with) and the URL shows what went in. *)
Definition show (v : pyval) : string :=
  match v with
  | PStr s => s
  | PNone => "None"
  | _ => "?"
  end.

Definition demo_client (a : ClientArgs) : outcome ClientArgs := Returns a.

Definition demo_presign (c : ClientArgs) (p : PresignArgs) : outcome string :=
  Returns (show (endpoint_url c) +:+ "/" +:+ show (Bucket p) +:+ "/"
           +:+ show (Key p) +:+ "?region=" +:+ show (region_name c)
           +:+ "&id="
           +:+ show (default PNone (credentials c !! "aws_access_key_id"))).

Definition demo_imgs : gmap string pyval :=
  {[ "bucket" := PStr "bkt"; "region" := PStr "us-east-1" ]}.

Definition demo_misc : gmap string pyval :=
  {[ "key_args" := PStr "" ]}.

Definition demo_destinations : gmap string pyval :=
  {[ "imgs" := PDict demo_imgs; "misc" := PDict demo_misc ]}.

Definition demo_settings : gmap string pyval :=
  {[ "S3DIRECT_DESTINATIONS" := PDict demo_destinations;
     "AWS_ACCESS_KEY_ID" := PStr "AKIAPRIMARY";
     "AWS_SECRET_ACCESS_KEY" := PStr "primary-secret";
     "AWS_STORAGE_BUCKET_NAME" := PStr "default-bkt";
     "AWS_S3_REGION_NAME" := PStr "oci-region";
     "AWS_S3_ENDPOINT_URL" := PStr "https://oci.example";
     "ORIGINAL_AWS_S3_REGION_NAME" := PStr "eu-west-1";
     "ORIGINAL_AWS_S3_ENDPOINT_URL" := PStr "https://s3.example";
     "ORIGINAL_AWS_ACCESS_KEY_ID" := PStr "AKIAORIGINAL";
     "ORIGINAL_SECRET_ACCESS_KEY" := PStr "original-secret" ]}.

(** A callable key strategy for the examples: it returns the positional
    arguments it was called with. *)
Definition record_args (args : list pyval) : outcome pyval :=
  Returns (PList args).

Definition demo_credentials : botocore.Credentials :=
  {| botocore.token := Returns (PStr "session-token");
     botocore.secret_key := Returns (PStr "session-secret");
     botocore.access_key := Returns (PStr "ASIASESSION") |}.

Definition session_with_credentials : botocore.Session :=
  {| botocore.get_credentials := Returns (Some demo_credentials) |}.

Definition session_without_credentials : botocore.Session :=
  {| botocore.get_credentials := Returns None |}.

(** ** Vocabulary of the statements *)

(** The provider calls of each kind, in the order they were made. *)
Definition clients (t : list call) : list ClientArgs :=
  flat_map (fun c => match c with Boto3Client a => [a] | _ => [] end) t.

Definition presigns (t : list call) : list PresignArgs :=
  flat_map (fun c => match c with GeneratePresignedUrl p => [p] | _ => [] end) t.

(** The key pair of the deployment mode: the primary settings when
    [is_oracle] is true, the "original" ones otherwise. *)
Definition mode_access_key (settings : gmap string pyval) (is_oracle : bool)
  : pyval :=
  getattr settings
    (if is_oracle then "AWS_ACCESS_KEY_ID" else "ORIGINAL_AWS_ACCESS_KEY_ID")
    PNone.

Definition mode_secret_key (settings : gmap string pyval) (is_oracle : bool)
  : pyval :=
  getattr settings
    (if is_oracle then "AWS_SECRET_ACCESS_KEY" else "ORIGINAL_SECRET_ACCESS_KEY")
    PNone.

(** The arguments the module resolves for the two provider calls, once the
    destination is found to be the dict [d] (lines 86-119). *)
Definition resolved_client
    (settings d : gmap string pyval) (is_oracle : bool) : ClientArgs :=
  {| service_name := "s3";
     endpoint_url :=
       default
         (getattr settings
            (if is_oracle then "AWS_S3_ENDPOINT_URL"
             else "ORIGINAL_AWS_S3_ENDPOINT_URL") PNone)
         (d !! "endpoint");
     region_name :=
       default
         (getattr settings
            (if is_oracle then "AWS_S3_REGION_NAME"
             else "ORIGINAL_AWS_S3_REGION_NAME") PNone)
         (d !! "region");
     signature_version := "s3v4";
     credentials :=
       if truthy (mode_access_key settings is_oracle)
          && truthy (mode_secret_key settings is_oracle)
       then {[ "aws_access_key_id" := mode_access_key settings is_oracle;
               "aws_secret_access_key" := mode_secret_key settings is_oracle ]}
       else ∅ |}.

Definition resolved_presign
    (settings d : gmap string pyval) (key : pyval) (expires_in : Z)
    (method_name : string) : PresignArgs :=
  {| ClientMethod := method_name;
     Bucket :=
       default (getattr settings "AWS_STORAGE_BUCKET_NAME" PNone)
               (d !! "bucket");
     Key := key;
     ExpiresIn := expires_in |}.

(** The error classes of the specification, read on an outcome of the
    module: a failure before any call to the provider comes from the
    module's own reading of the configuration and is a ConfigurationError;
    a failure after the provider was called was raised by the provider
    and is a ProviderError. *)
Inductive error_class : Type := ConfigurationError | ProviderError.

Definition error_class_of {A : Type} (m : io A) : option error_class :=
  match m with
  | (_, Returns _) => None
  | ([], Raises _) => Some ConfigurationError
  | (_ :: _, Raises _) => Some ProviderError
  end.

Definition slashes (n : nat) : string :=
  string_of_list_ascii (repeat "/"%char n).

Definition first_char (s : string) : option ascii :=
  match s with
  | EmptyString => None
  | String c _ => Some c
  end.

Fixpoint last_char (s : string) : option ascii :=
  match s with
  | EmptyString => None
  | String c EmptyString => Some c
  | String _ s' => last_char s'
  end.

(** Decimal digits agree with the padded numerals on a range, checked
    by evaluation. *)
Definition year_ok (n : nat) : bool :=
  let y := Z.of_nat n in
  (y <? 1000)%Z ||
  String.eqb (decimal y)
    (string_of_list_ascii
       [digit (y / 1000); digit (y / 100); digit (y / 10); digit y]).

Definition two_digits_ok (n : nat) : bool :=
  let m := Z.of_nat n in
  String.eqb (zfill 2 (decimal m))
    (string_of_list_ascii [digit (m / 10); digit m]).

(** The characters of [hexdigest()]: digits and lower-case a to f. *)
Definition is_lower_hex (c : ascii) : bool := char_in c "0123456789abcdef".

(** The settings [get_presigned_url] reads (lines 22 and 86-113). *)
Definition presign_settings : list string :=
  [ "S3DIRECT_DESTINATIONS";
    "AWS_ACCESS_KEY_ID"; "AWS_SECRET_ACCESS_KEY"; "AWS_STORAGE_BUCKET_NAME";
    "AWS_S3_REGION_NAME"; "AWS_S3_ENDPOINT_URL";
    "ORIGINAL_AWS_S3_REGION_NAME"; "ORIGINAL_AWS_S3_ENDPOINT_URL";
    "ORIGINAL_AWS_ACCESS_KEY_ID"; "ORIGINAL_SECRET_ACCESS_KEY" ].

(** A session whose credentials fail to refresh when they are read. *)
Definition session_refresh_fails : botocore.Session :=
  {| botocore.get_credentials :=
       Returns (Some
         {| botocore.token := Raises (External "CredentialRetrievalError");
            botocore.secret_key := Returns (PStr "session-secret");
            botocore.access_key := Returns (PStr "ASIASESSION") |}) |}.

Definition session_raising : botocore.Session :=
  {| botocore.get_credentials := Raises (External "CredentialRetrievalError") |}.

(** * Examples *)

Example sha256_abc :
  SHA256.hex (SHA256.sha256 (list_byte_of_string "abc")) =
  "ba7816bf8f01cfea414140de5dae2223b00361a396177a9cb410ff61f20015ad".
Proof. vm_compute. reflexivity. Qed.

Example sha256_empty :
  SHA256.hex (SHA256.sha256 []) =
  "e3b0c44298fc1c149afbf4c8996fb92427ae41e4649b934ca495991b7852b855".
Proof. vm_compute. reflexivity. Qed.

(** RFC 4231, test case 2. *)
Example hmac_rfc4231_case2 :
  get_aws_v4_signature (list_byte_of_string "Jefe")
                       "what do ya want for nothing?" =
  "5bdcc146bf60754e6a042426089575c75a003f089d2739839dec58b964ec3843".
Proof. vm_compute. reflexivity. Qed.

(** The example of the AWS documentation the source points to. *)
Example aws_documentation_signing_key :
  SHA256.hex
    (get_aws_v4_signing_key "wJalrXUtnFEMI/K7MDENG+bPxRfiCYEXAMPLEKEY"
       {| year := 2012; month := 2; day := 15 |} "us-east-1" "iam") =
  "f4780e2d9f65fa895f9c67b32ce1baf0b0d8a43505a000a1a9e090d414db404d".
Proof. vm_compute. reflexivity. Qed.

(** Years below 1000: the keys CPython on Linux computes. *)
Example signing_key_year_999 :
  SHA256.hex
    (get_aws_v4_signing_key "wJalrXUtnFEMI/K7MDENG+bPxRfiCYEXAMPLEKEY"
       {| year := 999; month := 12; day := 31 |} "us-east-1" "iam") =
  "4b3d3812b9ef0530f9083debb54b88e7f41c124a9d3eb14a2ecf92c492ccba1e".
Proof. vm_compute. reflexivity. Qed.

Example signing_key_year_1 :
  SHA256.hex
    (get_aws_v4_signing_key "wJalrXUtnFEMI/K7MDENG+bPxRfiCYEXAMPLEKEY"
       {| year := 1; month := 1; day := 1 |} "us-east-1" "iam") =
  "aaf333e7771a64312f81baff35c7ed7c350d0356deb3a4301784ae9cda501800".
Proof. vm_compute. reflexivity. Qed.

Example strftime_year_not_padded :
  strftime "%Y-%m-%d" {| year := 987; month := 6; day := 5 |} = "987-06-05".
Proof. reflexivity. Qed.

Example get_key_root : get_key (KeyValue (PStr "/")) "a.png" PNone
                       = Returns (PStr "a.png").
Proof. reflexivity. Qed.

Example get_key_prefix_trailing :
  get_key (KeyValue (PStr "uploads/")) "a.png" PNone
  = Returns (PStr "uploads/a.png").
Proof. reflexivity. Qed.

Example get_key_prefix_leading :
  get_key (KeyValue (PStr "/uploads")) "a.png" PNone
  = Returns (PStr "uploads/a.png").
Proof. reflexivity. Qed.

Example get_key_inner_slashes_kept :
  get_key (KeyValue (PStr "//a//b//")) "a.png" PNone
  = Returns (PStr "a//b/a.png").
Proof. reflexivity. Qed.

Example get_key_not_a_string :
  get_key (KeyValue PNone) "a.png" PNone
  = Raises (AttributeError "NoneType" "strip").
Proof. reflexivity. Qed.

Example get_key_callable_with_args :
  get_key (KeyCallable record_args) "a.png"
          (PDict {[ "key_args" := PStr "x" ]})
  = Returns (PList [PStr "a.png"; PStr "x"]).
Proof. reflexivity. Qed.

Example presign_native :
  get_presigned_url _ demo_client demo_presign demo_settings
    "imgs" (PStr "u/a.png") 3600 "get_object" true
  = ([Boto3Client
        {| service_name := "s3";
           endpoint_url := PStr "https://oci.example";
           region_name := PStr "us-east-1";
           signature_version := "s3v4";
           credentials :=
             {[ "aws_access_key_id" := PStr "AKIAPRIMARY";
                "aws_secret_access_key" := PStr "primary-secret" ]} |};
      GeneratePresignedUrl
        {| ClientMethod := "get_object"; Bucket := PStr "bkt";
           Key := PStr "u/a.png"; ExpiresIn := 3600 |}],
     Returns
       "https://oci.example/bkt/u/a.png?region=us-east-1&id=AKIAPRIMARY").
Proof. vm_compute. reflexivity. Qed.

Example presign_foreign :
  result (get_presigned_url _ demo_client demo_presign demo_settings
            "misc" (PStr "u/a.png") 3600 "get_object" false)
  = Returns
     "https://s3.example/default-bkt/u/a.png?region=eu-west-1&id=AKIAORIGINAL".
Proof. vm_compute. reflexivity. Qed.

Example presign_provider_failure :
  error_class_of
    (get_presigned_url ClientArgs
       (fun _ => Raises (External "ValueError: Invalid endpoint"))
       demo_presign demo_settings
       "imgs" (PStr "u/a.png") 3600 "get_object" true)
  = Some ProviderError.
Proof. vm_compute. reflexivity. Qed.

Example presign_destinations_unset :
  get_presigned_url _ demo_client demo_presign ∅
    "imgs" (PStr "u/a.png") 3600 "get_object" true
  = ([], Raises (AttributeError "NoneType" "get")).
Proof. reflexivity. Qed.

Example credentials_from_session :
  get_aws_credentials ∅ (Some session_with_credentials)
  = Returns (AWSCredentials (PStr "session-token") (PStr "session-secret")
                            (PStr "ASIASESSION")).
Proof. reflexivity. Qed.

Example credentials_refresh_fails :
  get_aws_credentials ∅ (Some session_refresh_fails)
  = Raises (External "CredentialRetrievalError").
Proof. reflexivity. Qed.

Example credentials_session_raises :
  get_aws_credentials ∅
    (Some {| botocore.get_credentials :=
               Raises (External "PartialCredentialsError") |})
  = Raises (External "PartialCredentialsError").
Proof. reflexivity. Qed.

(** * The signer *)

Lemma sha256_length (msg : list byte) : length (SHA256.sha256 msg) = 32.
Proof.
  unfold SHA256.sha256.
  destruct (fold_left SHA256.compress _ SHA256.H0)
    as [[[[[[[a b] c] d] e] f] g] h].
  reflexivity.
Qed.

Lemma hmac_sha256_length (key msg : list byte) :
  length (SHA256.hmac_sha256 key msg) = 32.
Proof. unfold SHA256.hmac_sha256. apply sha256_length. Qed.

Lemma sign_length (key : list byte) (message : string) :
  length (sign key message) = 32.
Proof. apply hmac_sha256_length. Qed.

Lemma list_byte_of_string_app (a b : string) :
  list_byte_of_string (a +:+ b) =
  list_byte_of_string a ++ list_byte_of_string b.
Proof.
  unfold list_byte_of_string.
  induction a as [|c a IH]; simpl.
  - reflexivity.
  - f_equal. exact IH.
Qed.

Lemma checked_below (f : nat -> bool) (bound : Z) :
  forallb f (seq 0 (Z.to_nat bound)) = true ->
  forall z : Z, (0 <= z < bound)%Z -> f (Z.to_nat z) = true.
Proof.
  intros Hall z Hz.
  rewrite forallb_forall in Hall.
  apply Hall, in_seq. lia.
Qed.

Lemma year_digits (y : Z) :
  (1000 <= y <= 9999)%Z ->
  decimal y =
  string_of_list_ascii
    [digit (y / 1000); digit (y / 100); digit (y / 10); digit y].
Proof.
  intros Hy.
  assert (Hall : forallb year_ok (seq 0 (Z.to_nat 10000)) = true)
    by (vm_compute; reflexivity).
  pose proof (checked_below year_ok 10000 Hall y ltac:(lia)) as H.
  unfold year_ok in H. rewrite Z2Nat.id in H by lia.
  apply orb_true_iff in H as [H|H].
  - apply Z.ltb_lt in H. lia.
  - now apply String.eqb_eq in H.
Qed.

Lemma two_digits (m : Z) :
  (0 <= m <= 99)%Z ->
  zfill 2 (decimal m) = string_of_list_ascii [digit (m / 10); digit m].
Proof.
  intros Hm.
  assert (Hall : forallb two_digits_ok (seq 0 (Z.to_nat 100)) = true)
    by (vm_compute; reflexivity).
  pose proof (checked_below two_digits_ok 100 Hall m ltac:(lia)) as H.
  unfold two_digits_ok in H. rewrite Z2Nat.id in H by lia.
  now apply String.eqb_eq in H.
Qed.

Lemma strftime_Ymd (d : date) :
  valid_date d -> (1000 <= year d)%Z -> strftime "%Y%m%d" d = YYYYMMDD d.
Proof.
  intros (Hy & Hm & Hd) Hyear.
  cbn [strftime directive].
  rewrite year_digits, !two_digits by lia.
  reflexivity.
Qed.

(** C1, as the claim has it, fails for a year below 1000: the date stamp
    that is signed is the year as [strftime] writes it, with no leading
    zeros, and the key is not the chain over the eight digits YYYYMMDD. *)
Lemma get_aws_v4_signing_key_year_999 :
  valid_date {| year := 999; month := 12; day := 31 |} /\
  strftime "%Y%m%d" {| year := 999; month := 12; day := 31 |} = "9991231" /\
  YYYYMMDD {| year := 999; month := 12; day := 31 |} = "09991231" /\
  get_aws_v4_signing_key "wJalrXUtnFEMI/K7MDENG+bPxRfiCYEXAMPLEKEY"
    {| year := 999; month := 12; day := 31 |} "us-east-1" "iam"
  <> deriveSigningKey_spec "wJalrXUtnFEMI/K7MDENG+bPxRfiCYEXAMPLEKEY"
       {| year := 999; month := 12; day := 31 |} "us-east-1" "iam".
Proof.
  split; [unfold valid_date; simpl; lia|].
  split; [reflexivity|].
  split; [reflexivity|].
  vm_compute. discriminate.
Qed.

(** C1, amended.  For every secret key K, calendar date D, region R and
    service S, what [get_aws_v4_signing_key] returns is a digest of 32
    bytes; and when the year of D is at least 1000 it is the four-step
    SigV4 chain of the specification: HMAC-SHA256 keyed with "AWS4"
    followed by K over D written YYYYMMDD, then over R, then over S, then
    over "aws4_request". *)
Theorem get_aws_v4_signing_key_is_sigv4_chain
    (K : string) (D : date) (R S : string) :
  valid_date D ->
  length (get_aws_v4_signing_key K D R S) = 32 /\
  ((1000 <= year D)%Z ->
   get_aws_v4_signing_key K D R S = deriveSigningKey_spec K D R S).
Proof.
  intros HD. split.
  - unfold get_aws_v4_signing_key. apply sign_length.
  - intros Hyear.
    unfold get_aws_v4_signing_key, deriveSigningKey_spec, sign, encode_utf8.
    rewrite (strftime_Ymd D HD Hyear), list_byte_of_string_app.
    reflexivity.
Qed.

Lemma get_aws_v4_signing_key_is_sigv4_chain_witness :
  valid_date {| year := 2012; month := 2; day := 15 |} /\
  (1000 <= year {| year := 2012; month := 2; day := 15 |})%Z /\
  length (get_aws_v4_signing_key "wJalrXUtnFEMI/K7MDENG+bPxRfiCYEXAMPLEKEY"
            {| year := 2012; month := 2; day := 15 |} "us-east-1" "iam") = 32 /\
  get_aws_v4_signing_key "wJalrXUtnFEMI/K7MDENG+bPxRfiCYEXAMPLEKEY"
    {| year := 2012; month := 2; day := 15 |} "us-east-1" "iam"
  = deriveSigningKey_spec "wJalrXUtnFEMI/K7MDENG+bPxRfiCYEXAMPLEKEY"
      {| year := 2012; month := 2; day := 15 |} "us-east-1" "iam".
Proof.
  assert (H : valid_date {| year := 2012; month := 2; day := 15 |})
    by (unfold valid_date; simpl; lia).
  assert (Hyear : (1000 <= year {| year := 2012; month := 2; day := 15 |})%Z)
    by (simpl; lia).
  split; [exact H|]. split; [exact Hyear|].
  split.
  - exact (proj1 (get_aws_v4_signing_key_is_sigv4_chain _ _ _ _ H)).
  - exact (proj2 (get_aws_v4_signing_key_is_sigv4_chain _ _ _ _ H) Hyear).
Defined.

(** * Credentials *)

Lemma truthy_str (s : string) : truthy (PStr s) = true <-> s <> "".
Proof.
  simpl. destruct (String.eqb_spec s ""); simpl; split; congruence.
Qed.

Lemma getattr_set (obj : gmap string pyval) (name : string) (v dflt : pyval) :
  obj !! name = Some v -> getattr obj name dflt = v.
Proof. intros H. unfold getattr. now rewrite H. Qed.

Lemma getattr_unset (obj : gmap string pyval) (name : string) (dflt : pyval) :
  obj !! name = None -> getattr obj name dflt = dflt.
Proof. intros H. unfold getattr. now rewrite H. Qed.

(** C2.  When a static access key id and secret access key are both
    configured and non-empty, [get_aws_credentials] returns them with no
    token, whatever the ambient session is or holds. *)
Theorem get_aws_credentials_static_wins
    (settings : gmap string pyval) (SESSION : option botocore.Session)
    (accessKey secretKey : string) :
  settings !! "AWS_ACCESS_KEY_ID" = Some (PStr accessKey) ->
  accessKey <> "" ->
  settings !! "AWS_SECRET_ACCESS_KEY" = Some (PStr secretKey) ->
  secretKey <> "" ->
  get_aws_credentials settings SESSION =
  Returns (AWSCredentials PNone (PStr secretKey) (PStr accessKey)).
Proof.
  intros Ha Hane Hs Hsne.
  unfold get_aws_credentials.
  rewrite (getattr_set _ _ _ _ Ha), (getattr_set _ _ _ _ Hs).
  apply truthy_str in Hane, Hsne.
  now rewrite Hane, Hsne.
Qed.

Lemma get_aws_credentials_static_wins_witness :
  demo_settings !! "AWS_ACCESS_KEY_ID" = Some (PStr "AKIAPRIMARY") /\
  "AKIAPRIMARY" <> "" /\
  demo_settings !! "AWS_SECRET_ACCESS_KEY" = Some (PStr "primary-secret") /\
  "primary-secret" <> "" /\
  get_aws_credentials demo_settings (Some session_with_credentials) =
  Returns (AWSCredentials PNone (PStr "primary-secret") (PStr "AKIAPRIMARY")).
Proof.
  assert (Ha : demo_settings !! "AWS_ACCESS_KEY_ID" = Some (PStr "AKIAPRIMARY"))
    by (vm_compute; reflexivity).
  assert (Hs : demo_settings !! "AWS_SECRET_ACCESS_KEY"
               = Some (PStr "primary-secret"))
    by (vm_compute; reflexivity).
  assert (Hane : "AKIAPRIMARY" <> "") by discriminate.
  assert (Hsne : "primary-secret" <> "") by discriminate.
  split; [exact Ha|]. split; [exact Hane|].
  split; [exact Hs|]. split; [exact Hsne|].
  exact (get_aws_credentials_static_wins demo_settings
           (Some session_with_credentials) _ _ Ha Hane Hs Hsne).
Defined.

(** C3.  When no static key pair is configured and there is no session,
    or the session's [get_credentials] returns [None], the result is the
    anonymous [AWSCredentials(None, None, None)]: a value is returned,
    nothing is raised. *)
Theorem get_aws_credentials_anonymous
    (settings : gmap string pyval) (SESSION : option botocore.Session) :
  truthy (getattr settings "AWS_ACCESS_KEY_ID" PNone)
    && truthy (getattr settings "AWS_SECRET_ACCESS_KEY" PNone) = false ->
  (SESSION = None \/
   exists session, SESSION = Some session /\
                   botocore.get_credentials session = Returns None) ->
  get_aws_credentials settings SESSION =
  Returns (AWSCredentials PNone PNone PNone).
Proof.
  intros Hstatic Hsession.
  unfold get_aws_credentials. rewrite Hstatic.
  destruct Hsession as [-> | (session & -> & Hnone)].
  - reflexivity.
  - rewrite Hnone. reflexivity.
Qed.

Lemma get_aws_credentials_anonymous_witness :
  truthy (getattr {[ "AWS_ACCESS_KEY_ID" := PStr "AKIAONLY" ]}
            "AWS_ACCESS_KEY_ID" PNone)
    && truthy (getattr ({[ "AWS_ACCESS_KEY_ID" := PStr "AKIAONLY" ]}
                          : gmap string pyval)
                 "AWS_SECRET_ACCESS_KEY" PNone) = false /\
  get_aws_credentials {[ "AWS_ACCESS_KEY_ID" := PStr "AKIAONLY" ]}
    (Some session_without_credentials) =
  Returns (AWSCredentials PNone PNone PNone).
Proof.
  assert (Hstatic :
    truthy (getattr {[ "AWS_ACCESS_KEY_ID" := PStr "AKIAONLY" ]}
              "AWS_ACCESS_KEY_ID" PNone)
      && truthy (getattr ({[ "AWS_ACCESS_KEY_ID" := PStr "AKIAONLY" ]}
                            : gmap string pyval)
                   "AWS_SECRET_ACCESS_KEY" PNone) = false)
    by (vm_compute; reflexivity).
  split; [exact Hstatic|].
  apply (get_aws_credentials_anonymous _ _ Hstatic).
  right. exists session_without_credentials. split; reflexivity.
Defined.

(** * The object key *)

Lemma char_in_slash (c : ascii) :
  char_in c "/" = true <-> c = "/"%char.
Proof.
  unfold char_in. simpl. rewrite orb_false_r. apply Ascii.eqb_eq.
Qed.

Lemma slashes_S (n : nat) (s : string) :
  slashes (S n) +:+ s = String "/" (slashes n +:+ s).
Proof. reflexivity. Qed.

Lemma lstrip_slashes (s : string) :
  exists i, s = slashes i +:+ lstrip "/" s /\
            first_char (lstrip "/" s) <> Some "/"%char.
Proof.
  induction s as [|c s (i & Hs & Hfirst)].
  - exists 0. split; [reflexivity | discriminate].
  - cbn [lstrip]. destruct (char_in c "/") eqn:Hc.
    + apply char_in_slash in Hc. subst c.
      exists (S i). split; [|exact Hfirst].
      rewrite slashes_S. f_equal. exact Hs.
    + exists 0. split; [reflexivity|].
      cbn. intros [= ->].
      assert (char_in "/" "/" = true) by reflexivity. congruence.
Qed.

Lemma rstrip_slashes (s : string) :
  exists j, s = rstrip "/" s +:+ slashes j /\
            last_char (rstrip "/" s) <> Some "/"%char.
Proof.
  induction s as [|c s (j & Hs & Hlast)].
  - exists 0. split; [reflexivity | discriminate].
  - cbn [rstrip]. destruct (rstrip "/" s) as [|a r] eqn:Hr.
    + destruct (char_in c "/") eqn:Hc.
      * apply char_in_slash in Hc. subst c.
        exists (S j). split; [|discriminate].
        change (String "/" s = String "/" (slashes j)).
        f_equal. exact Hs.
      * exists j. split.
        -- change (String c s = String c ("" +:+ slashes j)).
           f_equal. exact Hs.
        -- cbn. intros [= ->].
           assert (char_in "/" "/" = true) by reflexivity. congruence.
    + exists j. split.
      * change (String c s = String c (String a r +:+ slashes j)).
        f_equal. exact Hs.
      * exact Hlast.
Qed.

Lemma rstrip_first_char (s : string) :
  first_char s <> Some "/"%char ->
  first_char (rstrip "/" s) <> Some "/"%char.
Proof.
  destruct s as [|c s]; [trivial|].
  cbn [rstrip first_char]. intros Hc.
  destruct (rstrip "/" s); [destruct (char_in c "/")|];
    cbn [first_char]; congruence.
Qed.

Lemma strip_slashes (s : string) :
  exists i j, s = slashes i +:+ strip "/" s +:+ slashes j /\
              first_char (strip "/" s) <> Some "/"%char /\
              last_char (strip "/" s) <> Some "/"%char.
Proof.
  destruct (lstrip_slashes s) as (i & Hl & Hfirst).
  destruct (rstrip_slashes (lstrip "/" s)) as (j & Hr & Hlast).
  exists i, j. unfold strip. split; [|split].
  - rewrite <- Hr. exact Hl.
  - apply rstrip_first_char, Hfirst.
  - exact Hlast.
Qed.

Lemma strip_only_slashes (n : nat) : strip "/" (slashes n) = "".
Proof.
  unfold strip.
  assert (H : lstrip "/" (slashes n) = "")
    by (induction n as [|n IH]; [reflexivity | exact IH]).
  rewrite H. reflexivity.
Qed.

Lemma slashes_is_root (n : nat) : String.eqb (slashes n) "/" = Nat.eqb n 1.
Proof. destruct n as [|[|n]]; reflexivity. Qed.

Lemma get_key_str (k file_name : string) (dest : pyval) :
  get_key (KeyValue (PStr k)) file_name dest =
  Returns (PStr (if String.eqb k "/" then file_name
                 else strip "/" k +:+ "/" +:+ file_name)).
Proof.
  unfold get_key, py_eq_str, py_strip.
  destruct (String.eqb k "/"); reflexivity.
Qed.

(** C4.  For a string key strategy and any file name, whatever the
    destination: the strategy is some slashes, a part that neither starts
    nor ends with a slash, and some slashes; the key is the file name
    itself when the strategy is exactly "/", and otherwise that middle
    part, a slash and the file name.  In particular a strategy made of
    slashes only (the empty one too, and not "/" itself) gives a slash
    followed by the file name. *)
Theorem get_key_string_strategy
    (keyStrategy fileName : string) (dest : pyval) :
  (exists (i j : nat) (stripped : string),
      keyStrategy = slashes i +:+ stripped +:+ slashes j /\
      first_char stripped <> Some "/"%char /\
      last_char stripped <> Some "/"%char /\
      get_key (KeyValue (PStr keyStrategy)) fileName dest =
      Returns (PStr (if String.eqb keyStrategy "/" then fileName
                     else stripped +:+ "/" +:+ fileName))) /\
  (forall n : nat,
      get_key (KeyValue (PStr (slashes n))) fileName dest =
      Returns (PStr (if Nat.eqb n 1 then fileName else "/" +:+ fileName))).
Proof.
  split.
  - destruct (strip_slashes keyStrategy) as (i & j & Hk & Hfirst & Hlast).
    exists i, j, (strip "/" keyStrategy).
    repeat (split; [assumption|]).
    apply get_key_str.
  - intros n.
    rewrite get_key_str, slashes_is_root, strip_only_slashes.
    reflexivity.
Qed.

(** What [if args:] lets through: everything but [None], [False], zero
    and the empty string, list and dict. *)
Lemma truthy_false (v : pyval) :
  truthy v = false <->
  v = PNone \/ v = PBool false \/ v = PInt 0 \/ v = PStr "" \/
  v = PList [] \/ v = PDict ∅.
Proof.
  split.
  - destruct v as [|b|n|s|l|d]; cbn [truthy]; intros H.
    + now left.
    + subst b. now right; left.
    + apply negb_false_iff, Z.eqb_eq in H. subst n. now right; right; left.
    + apply negb_false_iff, String.eqb_eq in H. subst s.
      now right; right; right; left.
    + destruct l; [|discriminate]. now right; right; right; right; left.
    + apply negb_false_iff, Nat.eqb_eq, map_size_empty_iff in H. subst d.
      now right; right; right; right; right.
  - intros [->|[->|[->|[->|[->| ->]]]]]; reflexivity.
Qed.

(** C5, as the claim has it, fails: a [key_args] that is present and not
    [None], here the empty string, is not passed to the callable. *)
Lemma get_key_callable_empty_key_args :
  ({[ "key_args" := PStr "" ]} : gmap string pyval) !! "key_args"
    = Some (PStr "") /\
  PStr "" <> PNone /\
  get_key (KeyCallable record_args) "a.png"
          (PDict {[ "key_args" := PStr "" ]})
    = record_args [PStr "a.png"] /\
  get_key (KeyCallable record_args) "a.png"
          (PDict {[ "key_args" := PStr "" ]})
    <> record_args [PStr "a.png"; PStr ""].
Proof.
  split; [vm_compute; reflexivity|].
  split; [discriminate|].
  split; [vm_compute; reflexivity|].
  vm_compute. discriminate.
Qed.

(** C5, amended.  With a callable key strategy [f] and a destination dict,
    [get_key] calls [f] once and returns what [f] returns (or raises what
    it raises), unchanged.  The call is [f(file_name, key_args)] when the
    destination's [key_args] is true for [if] (present, and none of
    [None], [False], 0, "", [[]], [{}]), and [f(file_name)] otherwise. *)
Theorem get_key_callable_strategy
    (f : list pyval -> outcome pyval) (fileName : string)
    (destination : gmap string pyval) :
  get_key (KeyCallable f) fileName (PDict destination) =
  match destination !! "key_args" with
  | Some keyArgs =>
      if truthy keyArgs then f [PStr fileName; keyArgs]
      else f [PStr fileName]
  | None => f [PStr fileName]
  end.
Proof.
  unfold get_key, py_get.
  destruct (destination !! "key_args") as [keyArgs|]; cbn.
  - destruct (truthy keyArgs); reflexivity.
  - reflexivity.
Qed.

(** * The presigned URL *)

Section ProviderFacts.

Variable S3Client : Type.
Variable boto3_client : ClientArgs -> outcome S3Client.
Variable generate_presigned_url : S3Client -> PresignArgs -> outcome string.

(** With the destination found, the module makes the client and, when
    that succeeds, asks it for the URL; nothing else is called. *)
Lemma get_presigned_url_found
    (settings dests d : gmap string pyval) (dest : string) (key : pyval)
    (expires_in : Z) (method_name : string) (is_oracle : bool) :
  settings !! "S3DIRECT_DESTINATIONS" = Some (PDict dests) ->
  dests !! dest = Some (PDict d) ->
  get_presigned_url S3Client boto3_client generate_presigned_url
    settings dest key expires_in method_name is_oracle =
  match boto3_client (resolved_client settings d is_oracle) with
  | Returns c =>
      ([Boto3Client (resolved_client settings d is_oracle);
        GeneratePresignedUrl
          (resolved_presign settings d key expires_in method_name)],
       generate_presigned_url c
         (resolved_presign settings d key expires_in method_name))
  | Raises e =>
      ([Boto3Client (resolved_client settings d is_oracle)], Raises e)
  end.
Proof.
  intros Hdests Hdest.
  unfold get_presigned_url, get_s3direct_destinations.
  rewrite (getattr_set _ _ _ PNone Hdests).
  cbn [py_get]. rewrite Hdest.
  unfold resolved_client, resolved_presign, mode_access_key, mode_secret_key.
  destruct is_oracle; cbn;
    destruct (boto3_client _) as [c|e]; cbn;
    try destruct (generate_presigned_url c _); reflexivity.
Qed.

Lemma getattr_agree
    (settings1 settings2 : gmap string pyval) (name : string) (dflt : pyval) :
  settings1 !! name = settings2 !! name ->
  getattr settings1 name dflt = getattr settings2 name dflt.
Proof. intros H. unfold getattr. now rewrite H. Qed.

(** C6.  When the destination id is not a key of the mapping in
    [S3DIRECT_DESTINATIONS], the call fails before the provider is
    reached: no client is made and no URL is returned.  What is raised is
    the [AttributeError] of calling [get] on [None], the value the lookup
    gave; in the specification's classes it is a ConfigurationError. *)
Theorem get_presigned_url_unknown_destination
    (settings dests : gmap string pyval) (dest : string) (key : pyval)
    (expires_in : Z) (method_name : string) (is_oracle : bool) :
  settings !! "S3DIRECT_DESTINATIONS" = Some (PDict dests) ->
  dests !! dest = None ->
  get_presigned_url S3Client boto3_client generate_presigned_url
    settings dest key expires_in method_name is_oracle
    = ([], Raises (AttributeError "NoneType" "get")) /\
  error_class_of
    (get_presigned_url S3Client boto3_client generate_presigned_url
       settings dest key expires_in method_name is_oracle)
    = Some ConfigurationError.
Proof.
  intros Hdests Hdest.
  assert (Hraise :
    get_presigned_url S3Client boto3_client generate_presigned_url
      settings dest key expires_in method_name is_oracle
    = ([], Raises (AttributeError "NoneType" "get"))).
  { unfold get_presigned_url, get_s3direct_destinations.
    rewrite (getattr_set _ _ _ PNone Hdests).
    cbn [py_get]. rewrite Hdest.
    reflexivity. }
  split; [exact Hraise|].
  rewrite Hraise. reflexivity.
Qed.

(** C7.  In FOREIGN mode ([is_oracle] false), with the destination found,
    exactly one client is made; its region and its endpoint are the
    destination's where the destination has the entry, and otherwise the
    settings [ORIGINAL_AWS_S3_REGION_NAME] and
    [ORIGINAL_AWS_S3_ENDPOINT_URL].  The primary [AWS_S3_REGION_NAME] and
    [AWS_S3_ENDPOINT_URL] play no part: whatever they are set to, the same
    client is made. *)
Theorem get_presigned_url_foreign_region_endpoint
    (settings dests d : gmap string pyval) (dest : string) (key : pyval)
    (expires_in : Z) (method_name : string) :
  settings !! "S3DIRECT_DESTINATIONS" = Some (PDict dests) ->
  dests !! dest = Some (PDict d) ->
  exists a,
    clients (calls (get_presigned_url S3Client boto3_client
                      generate_presigned_url
                      settings dest key expires_in method_name false)) = [a] /\
    region_name a =
      match d !! "region" with
      | Some region => region
      | None => getattr settings "ORIGINAL_AWS_S3_REGION_NAME" PNone
      end /\
    endpoint_url a =
      match d !! "endpoint" with
      | Some endpoint => endpoint
      | None => getattr settings "ORIGINAL_AWS_S3_ENDPOINT_URL" PNone
      end /\
    forall primary_region primary_endpoint : pyval,
      clients (calls (get_presigned_url S3Client boto3_client
                        generate_presigned_url
                        (<["AWS_S3_REGION_NAME" := primary_region]>
                           (<["AWS_S3_ENDPOINT_URL" := primary_endpoint]>
                              settings))
                        dest key expires_in method_name false)) = [a].
Proof.
  intros Hdests Hdest.
  exists (resolved_client settings d false).
  split; [|split; [|split]].
  - rewrite (get_presigned_url_found _ _ _ _ _ _ _ _ Hdests Hdest).
    destruct (boto3_client _); reflexivity.
  - cbn. destruct (d !! "region"); reflexivity.
  - cbn. destruct (d !! "endpoint"); reflexivity.
  - intros primary_region primary_endpoint.
    rewrite (get_presigned_url_found _ dests d).
    + assert (Hsame :
        resolved_client
          (<["AWS_S3_REGION_NAME" := primary_region]>
             (<["AWS_S3_ENDPOINT_URL" := primary_endpoint]> settings))
          d false
        = resolved_client settings d false).
      { unfold resolved_client, mode_access_key, mode_secret_key, getattr.
        now rewrite !lookup_insert_ne by discriminate. }
      rewrite Hsame. destruct (boto3_client _); reflexivity.
    + now rewrite !lookup_insert_ne by discriminate.
    + exact Hdest.
Qed.

(** C8.  With the destination found, the one client that is made gets
    the explicit pair [aws_access_key_id], [aws_secret_access_key] exactly
    when the access key and the secret key of the mode (the primary pair
    when [is_oracle], the "original" pair otherwise) are both true for
    [if], that is present and non-empty; otherwise it gets no credentials
    argument at all. *)
Theorem get_presigned_url_explicit_credentials
    (settings dests d : gmap string pyval) (dest : string) (key : pyval)
    (expires_in : Z) (method_name : string) (is_oracle : bool) :
  settings !! "S3DIRECT_DESTINATIONS" = Some (PDict dests) ->
  dests !! dest = Some (PDict d) ->
  exists a,
    clients (calls (get_presigned_url S3Client boto3_client
                      generate_presigned_url
                      settings dest key expires_in method_name is_oracle))
      = [a] /\
    credentials a =
      if truthy (mode_access_key settings is_oracle)
         && truthy (mode_secret_key settings is_oracle)
      then {[ "aws_access_key_id" := mode_access_key settings is_oracle;
              "aws_secret_access_key" := mode_secret_key settings is_oracle ]}
      else ∅.
Proof.
  intros Hdests Hdest.
  exists (resolved_client settings d is_oracle).
  split; [|reflexivity].
  rewrite (get_presigned_url_found _ _ _ _ _ _ _ _ Hdests Hdest).
  destruct (boto3_client _); reflexivity.
Qed.

(** C9.  In FOREIGN mode the whole outcome, the calls made to the
    provider with their arguments and the URL or exception that results,
    is the same for two settings that differ at most in
    [AWS_ACCESS_KEY_ID] and [AWS_SECRET_ACCESS_KEY]. *)
Theorem get_presigned_url_foreign_ignores_primary_keys
    (settings1 settings2 : gmap string pyval) (dest : string) (key : pyval)
    (expires_in : Z) (method_name : string) :
  (forall name : string,
      name <> "AWS_ACCESS_KEY_ID" -> name <> "AWS_SECRET_ACCESS_KEY" ->
      settings1 !! name = settings2 !! name) ->
  get_presigned_url S3Client boto3_client generate_presigned_url
    settings1 dest key expires_in method_name false =
  get_presigned_url S3Client boto3_client generate_presigned_url
    settings2 dest key expires_in method_name false.
Proof.
  intros Hagree.
  assert (Hget : forall name dflt,
             name <> "AWS_ACCESS_KEY_ID" ->
             name <> "AWS_SECRET_ACCESS_KEY" ->
             getattr settings1 name dflt = getattr settings2 name dflt)
    by (intros; apply getattr_agree, Hagree; assumption).
  unfold get_presigned_url, get_s3direct_destinations.
  rewrite (Hget "S3DIRECT_DESTINATIONS"),
          (Hget "AWS_STORAGE_BUCKET_NAME"),
          (Hget "AWS_S3_REGION_NAME"),
          (Hget "AWS_S3_ENDPOINT_URL"),
          (Hget "ORIGINAL_AWS_S3_REGION_NAME"),
          (Hget "ORIGINAL_AWS_S3_ENDPOINT_URL"),
          (Hget "ORIGINAL_AWS_ACCESS_KEY_ID"),
          (Hget "ORIGINAL_SECRET_ACCESS_KEY") by discriminate.
  reflexivity.
Qed.

(** C10.  With the destination found, the [Bucket] of the presign call is
    the destination's [bucket] entry when it has one, and otherwise the
    setting [AWS_STORAGE_BUCKET_NAME] ([None] when that is not set).  The
    presign call is made, once, whenever the client could be made. *)
Theorem get_presigned_url_bucket
    (settings dests d : gmap string pyval) (dest : string) (key : pyval)
    (expires_in : Z) (method_name : string) (is_oracle : bool) :
  settings !! "S3DIRECT_DESTINATIONS" = Some (PDict dests) ->
  dests !! dest = Some (PDict d) ->
  exists a p,
    clients (calls (get_presigned_url S3Client boto3_client
                      generate_presigned_url
                      settings dest key expires_in method_name is_oracle))
      = [a] /\
    presigns (calls (get_presigned_url S3Client boto3_client
                       generate_presigned_url
                       settings dest key expires_in method_name is_oracle))
      = match boto3_client a with
        | Returns _ => [p]
        | Raises _ => []
        end /\
    Bucket p =
      match d !! "bucket" with
      | Some bucket => bucket
      | None => getattr settings "AWS_STORAGE_BUCKET_NAME" PNone
      end.
Proof.
  intros Hdests Hdest.
  exists (resolved_client settings d is_oracle),
         (resolved_presign settings d key expires_in method_name).
  rewrite (get_presigned_url_found _ _ _ _ _ _ _ _ Hdests Hdest).
  split; [|split].
  - destruct (boto3_client _); reflexivity.
  - destruct (boto3_client _); reflexivity.
  - cbn. destruct (d !! "bucket"); reflexivity.
Qed.

End ProviderFacts.

(** Instances of the statements above, on the example settings. *)

Lemma demo_settings_destinations :
  demo_settings !! "S3DIRECT_DESTINATIONS" = Some (PDict demo_destinations).
Proof. reflexivity. Qed.

Lemma demo_destinations_imgs :
  demo_destinations !! "imgs" = Some (PDict demo_imgs).
Proof. reflexivity. Qed.

Lemma demo_destinations_misc :
  demo_destinations !! "misc" = Some (PDict demo_misc).
Proof. reflexivity. Qed.

Lemma get_presigned_url_unknown_destination_witness :
  demo_settings !! "S3DIRECT_DESTINATIONS" = Some (PDict demo_destinations) /\
  demo_destinations !! "nope" = None /\
  get_presigned_url ClientArgs demo_client demo_presign
    demo_settings "nope" (PStr "u/a.png") 3600 "get_object" true
    = ([], Raises (AttributeError "NoneType" "get")) /\
  error_class_of
    (get_presigned_url ClientArgs demo_client demo_presign
       demo_settings "nope" (PStr "u/a.png") 3600 "get_object" true)
    = Some ConfigurationError.
Proof.
  assert (Hnope : demo_destinations !! "nope" = None) by reflexivity.
  split; [exact demo_settings_destinations|].
  split; [exact Hnope|].
  exact (get_presigned_url_unknown_destination ClientArgs demo_client
           demo_presign demo_settings demo_destinations "nope"
           (PStr "u/a.png") 3600 "get_object" true
           demo_settings_destinations Hnope).
Defined.

Lemma get_presigned_url_foreign_region_endpoint_witness :
  demo_settings !! "S3DIRECT_DESTINATIONS" = Some (PDict demo_destinations) /\
  demo_destinations !! "misc" = Some (PDict demo_misc) /\
  exists a,
    clients (calls (get_presigned_url ClientArgs demo_client demo_presign
                      demo_settings "misc" (PStr "u/a.png") 3600
                      "get_object" false)) = [a] /\
    region_name a =
      match demo_misc !! "region" with
      | Some region => region
      | None => getattr demo_settings "ORIGINAL_AWS_S3_REGION_NAME" PNone
      end /\
    endpoint_url a =
      match demo_misc !! "endpoint" with
      | Some endpoint => endpoint
      | None => getattr demo_settings "ORIGINAL_AWS_S3_ENDPOINT_URL" PNone
      end /\
    forall primary_region primary_endpoint : pyval,
      clients (calls (get_presigned_url ClientArgs demo_client demo_presign
                        (<["AWS_S3_REGION_NAME" := primary_region]>
                           (<["AWS_S3_ENDPOINT_URL" := primary_endpoint]>
                              demo_settings))
                        "misc" (PStr "u/a.png") 3600 "get_object" false))
      = [a].
Proof.
  split; [exact demo_settings_destinations|].
  split; [exact demo_destinations_misc|].
  exact (get_presigned_url_foreign_region_endpoint ClientArgs demo_client
           demo_presign demo_settings demo_destinations demo_misc "misc"
           (PStr "u/a.png") 3600 "get_object"
           demo_settings_destinations demo_destinations_misc).
Defined.

Lemma get_presigned_url_explicit_credentials_witness :
  demo_settings !! "S3DIRECT_DESTINATIONS" = Some (PDict demo_destinations) /\
  demo_destinations !! "imgs" = Some (PDict demo_imgs) /\
  exists a,
    clients (calls (get_presigned_url ClientArgs demo_client demo_presign
                      demo_settings "imgs" (PStr "u/a.png") 3600
                      "get_object" true)) = [a] /\
    credentials a =
      if truthy (mode_access_key demo_settings true)
         && truthy (mode_secret_key demo_settings true)
      then {[ "aws_access_key_id" := mode_access_key demo_settings true;
              "aws_secret_access_key" := mode_secret_key demo_settings true ]}
      else ∅.
Proof.
  split; [exact demo_settings_destinations|].
  split; [exact demo_destinations_imgs|].
  exact (get_presigned_url_explicit_credentials ClientArgs demo_client
           demo_presign demo_settings demo_destinations demo_imgs "imgs"
           (PStr "u/a.png") 3600 "get_object" true
           demo_settings_destinations demo_destinations_imgs).
Defined.

Lemma get_presigned_url_foreign_ignores_primary_keys_witness :
  (forall name : string,
      name <> "AWS_ACCESS_KEY_ID" -> name <> "AWS_SECRET_ACCESS_KEY" ->
      demo_settings !! name =
      delete "AWS_SECRET_ACCESS_KEY"
        (<["AWS_ACCESS_KEY_ID" := PStr "AKIAOTHER"]> demo_settings) !! name) /\
  get_presigned_url ClientArgs demo_client demo_presign
    demo_settings "imgs" (PStr "u/a.png") 3600 "get_object" false =
  get_presigned_url ClientArgs demo_client demo_presign
    (delete "AWS_SECRET_ACCESS_KEY"
       (<["AWS_ACCESS_KEY_ID" := PStr "AKIAOTHER"]> demo_settings))
    "imgs" (PStr "u/a.png") 3600 "get_object" false.
Proof.
  assert (Hagree : forall name : string,
      name <> "AWS_ACCESS_KEY_ID" -> name <> "AWS_SECRET_ACCESS_KEY" ->
      demo_settings !! name =
      delete "AWS_SECRET_ACCESS_KEY"
        (<["AWS_ACCESS_KEY_ID" := PStr "AKIAOTHER"]> demo_settings) !! name).
  { intros name Ha Hs.
    rewrite lookup_delete_ne by congruence.
    rewrite lookup_insert_ne by congruence.
    reflexivity. }
  split; [exact Hagree|].
  exact (get_presigned_url_foreign_ignores_primary_keys ClientArgs
           demo_client demo_presign _ _ "imgs" (PStr "u/a.png") 3600
           "get_object" Hagree).
Defined.

Lemma get_presigned_url_bucket_witness :
  demo_settings !! "S3DIRECT_DESTINATIONS" = Some (PDict demo_destinations) /\
  demo_destinations !! "misc" = Some (PDict demo_misc) /\
  exists a p,
    clients (calls (get_presigned_url ClientArgs demo_client demo_presign
                      demo_settings "misc" (PStr "u/a.png") 3600
                      "get_object" true)) = [a] /\
    presigns (calls (get_presigned_url ClientArgs demo_client demo_presign
                       demo_settings "misc" (PStr "u/a.png") 3600
                       "get_object" true))
      = match demo_client a with
        | Returns _ => [p]
        | Raises _ => []
        end /\
    Bucket p =
      match demo_misc !! "bucket" with
      | Some bucket => bucket
      | None => getattr demo_settings "AWS_STORAGE_BUCKET_NAME" PNone
      end.
Proof.
  split; [exact demo_settings_destinations|].
  split; [exact demo_destinations_misc|].
  exact (get_presigned_url_bucket ClientArgs demo_client demo_presign
           demo_settings demo_destinations demo_misc "misc"
           (PStr "u/a.png") 3600 "get_object" true
           demo_settings_destinations demo_destinations_misc).
Defined.

(** * Further properties of the signer *)

Lemma hex_length (bs : list byte) :
  String.length (SHA256.hex bs) = 2 * length bs.
Proof.
  induction bs as [|b bs IH]; cbn [SHA256.hex String.length length].
  - reflexivity.
  - rewrite IH. lia.
Qed.

Lemma hex_byte_lower (b : byte) :
  is_lower_hex (SHA256.hex_digit (SHA256.Z_of_byte b / 16)) = true /\
  is_lower_hex (SHA256.hex_digit (SHA256.Z_of_byte b mod 16)) = true.
Proof. destruct b; split; vm_compute; reflexivity. Qed.

Lemma hex_lower (bs : list byte) :
  forallb is_lower_hex (list_ascii_of_string (SHA256.hex bs)) = true.
Proof.
  induction bs as [|b bs IH];
    cbn [SHA256.hex list_ascii_of_string forallb].
  - reflexivity.
  - destruct (hex_byte_lower b) as [Hhi Hlo].
    rewrite Hhi, Hlo, IH. reflexivity.
Qed.

(** X1.  [sign] is total and its result is always 32 bytes long, for the
    empty key and the empty message as for any other. *)
Theorem sign_is_32_bytes (key : list byte) (message : string) :
  length (sign key message) = 32.
Proof.
  unfold sign, SHA256.hmac_sha256.
  apply sha256_length.
Qed.

(** X2.  [get_aws_v4_signature] returns 64 characters, each a digit or a
    lower-case letter a to f, and they are the hexadecimal writing of
    what [sign] returns for the same key and message. *)
Theorem get_aws_v4_signature_is_lower_hex (key : list byte) (message : string) :
  String.length (get_aws_v4_signature key message) = 64 /\
  forallb is_lower_hex
    (list_ascii_of_string (get_aws_v4_signature key message)) = true /\
  get_aws_v4_signature key message = SHA256.hex (sign key message).
Proof.
  unfold get_aws_v4_signature.
  split; [|split].
  - rewrite hex_length, hmac_sha256_length. reflexivity.
  - apply hex_lower.
  - reflexivity.
Qed.

(** X3.  A key longer than the 64-byte block of SHA-256 signs as its
    SHA-256 digest does. *)
Theorem sign_long_key_is_hashed (key : list byte) (message : string) :
  64 < length key ->
  sign key message = sign (SHA256.sha256 key) message.
Proof.
  intros Hlong.
  unfold sign, SHA256.hmac_sha256, SHA256.block_size.
  assert (Hkey : (64 <? length key) = true) by (apply Nat.ltb_lt; exact Hlong).
  assert (Hdigest : (64 <? length (SHA256.sha256 key)) = false)
    by (rewrite sha256_length; reflexivity).
  rewrite Hkey, Hdigest. reflexivity.
Qed.

Lemma sign_long_key_is_hashed_witness :
  64 < length (repeat x61 65) /\
  sign (repeat x61 65) "20120215" =
  sign (SHA256.sha256 (repeat x61 65)) "20120215".
Proof.
  assert (Hlong : 64 < length (repeat x61 65))
    by (rewrite repeat_length; lia).
  split; [exact Hlong|].
  exact (sign_long_key_is_hashed (repeat x61 65) "20120215" Hlong).
Defined.

(** X4.  A key shorter than the block signs as the same key followed by a
    zero byte: HMAC pads the key with zeros. *)
Theorem sign_key_zero_padded (key : list byte) (message : string) :
  length key < 64 ->
  sign (key ++ [x00]) message = sign key message.
Proof.
  intros Hshort.
  unfold sign, SHA256.hmac_sha256, SHA256.block_size.
  assert (Hkey : (64 <? length key) = false) by (apply Nat.ltb_ge; lia).
  assert (Hkey0 : (64 <? length (key ++ [x00])) = false)
    by (apply Nat.ltb_ge; rewrite length_app; simpl; lia).
  rewrite Hkey, Hkey0.
  assert (Hpad :
    (key ++ [x00]) ++ repeat x00 (64 - length (key ++ [x00]))
    = key ++ repeat x00 (64 - length key)).
  { rewrite length_app. cbn [length].
    replace (64 - length key) with (S (64 - (length key + 1))) by lia.
    rewrite <- app_assoc. reflexivity. }
  rewrite Hpad. reflexivity.
Qed.

Lemma sign_key_zero_padded_witness :
  length (list_byte_of_string "AWS4secret") < 64 /\
  sign (list_byte_of_string "AWS4secret" ++ [x00]) "20120215" =
  sign (list_byte_of_string "AWS4secret") "20120215".
Proof.
  assert (Hshort : length (list_byte_of_string "AWS4secret") < 64)
    by (simpl; lia).
  split; [exact Hshort|].
  exact (sign_key_zero_padded _ "20120215" Hshort).
Defined.

(** * Further properties of the credentials *)

(** X6.  When no static pair is configured, the session's
    [get_credentials] gives a credentials object and its token, secret
    key and access key can be read, the result carries the three values
    read, each in the field of its name. *)
Theorem get_aws_credentials_from_session
    (settings : gmap string pyval) (session : botocore.Session)
    (creds : botocore.Credentials) (tokenValue secretKey accessKey : pyval) :
  truthy (getattr settings "AWS_ACCESS_KEY_ID" PNone)
    && truthy (getattr settings "AWS_SECRET_ACCESS_KEY" PNone) = false ->
  botocore.get_credentials session = Returns (Some creds) ->
  botocore.token creds = Returns tokenValue ->
  botocore.secret_key creds = Returns secretKey ->
  botocore.access_key creds = Returns accessKey ->
  get_aws_credentials settings (Some session) =
  Returns (AWSCredentials tokenValue secretKey accessKey).
Proof.
  intros Hstatic Hcreds Htoken Hsecret Haccess.
  unfold get_aws_credentials.
  rewrite Hstatic, Hcreds. cbn.
  rewrite Htoken, Hsecret, Haccess.
  reflexivity.
Qed.

Lemma get_aws_credentials_from_session_witness :
  truthy (getattr (∅ : gmap string pyval) "AWS_ACCESS_KEY_ID" PNone)
    && truthy (getattr (∅ : gmap string pyval) "AWS_SECRET_ACCESS_KEY" PNone)
    = false /\
  botocore.get_credentials session_with_credentials
    = Returns (Some demo_credentials) /\
  botocore.token demo_credentials = Returns (PStr "session-token") /\
  botocore.secret_key demo_credentials = Returns (PStr "session-secret") /\
  botocore.access_key demo_credentials = Returns (PStr "ASIASESSION") /\
  get_aws_credentials ∅ (Some session_with_credentials) =
  Returns (AWSCredentials (PStr "session-token") (PStr "session-secret")
                          (PStr "ASIASESSION")).
Proof.
  assert (Hstatic :
    truthy (getattr (∅ : gmap string pyval) "AWS_ACCESS_KEY_ID" PNone)
      && truthy (getattr (∅ : gmap string pyval) "AWS_SECRET_ACCESS_KEY" PNone)
      = false) by reflexivity.
  assert (Hcreds : botocore.get_credentials session_with_credentials
                   = Returns (Some demo_credentials)) by reflexivity.
  assert (Htoken : botocore.token demo_credentials
                   = Returns (PStr "session-token")) by reflexivity.
  assert (Hsecret : botocore.secret_key demo_credentials
                    = Returns (PStr "session-secret")) by reflexivity.
  assert (Haccess : botocore.access_key demo_credentials
                    = Returns (PStr "ASIASESSION")) by reflexivity.
  split; [exact Hstatic|]. split; [exact Hcreds|].
  split; [exact Htoken|]. split; [exact Hsecret|]. split; [exact Haccess|].
  exact (get_aws_credentials_from_session ∅ session_with_credentials
           demo_credentials _ _ _ Hstatic Hcreds Htoken Hsecret Haccess).
Defined.

(** X7.  [get_aws_credentials] raises nothing of its own: when it raises,
    no static pair is configured, there is a session, and the exception
    was raised either by the session's [get_credentials] or by reading
    the token, the secret key or the access key of the credentials
    object it returned. *)
Theorem get_aws_credentials_raises_only_from_session
    (settings : gmap string pyval) (SESSION : option botocore.Session)
    (e : exn) :
  get_aws_credentials settings SESSION = Raises e ->
  truthy (getattr settings "AWS_ACCESS_KEY_ID" PNone)
    && truthy (getattr settings "AWS_SECRET_ACCESS_KEY" PNone) = false /\
  exists session,
    SESSION = Some session /\
    (botocore.get_credentials session = Raises e \/
     exists creds,
       botocore.get_credentials session = Returns (Some creds) /\
       (botocore.token creds = Raises e \/
        botocore.secret_key creds = Raises e \/
        botocore.access_key creds = Raises e)).
Proof.
  unfold get_aws_credentials.
  destruct (truthy _ && truthy _); [discriminate|].
  destruct SESSION as [session|]; [|discriminate].
  intros H. split; [reflexivity|].
  exists session. split; [reflexivity|].
  destruct (botocore.get_credentials session) as [[creds|]|e'] eqn:Hget;
    cbn in H.
  - right. exists creds. split; [reflexivity|].
    destruct (botocore.token creds) as [t|e1]; cbn in H;
      [|left; congruence].
    destruct (botocore.secret_key creds) as [k|e2]; cbn in H;
      [|right; left; congruence].
    destruct (botocore.access_key creds) as [a|e3]; cbn in H;
      [discriminate | right; right; congruence].
  - discriminate.
  - left. congruence.
Qed.

Lemma get_aws_credentials_raises_only_from_session_witness :
  get_aws_credentials ∅ (Some session_refresh_fails)
    = Raises (External "CredentialRetrievalError") /\
  truthy (getattr (∅ : gmap string pyval) "AWS_ACCESS_KEY_ID" PNone)
    && truthy (getattr (∅ : gmap string pyval) "AWS_SECRET_ACCESS_KEY" PNone)
    = false /\
  exists session,
    Some session_refresh_fails = Some session /\
    (botocore.get_credentials session
       = Raises (External "CredentialRetrievalError") \/
     exists creds,
       botocore.get_credentials session = Returns (Some creds) /\
       (botocore.token creds = Raises (External "CredentialRetrievalError") \/
        botocore.secret_key creds
          = Raises (External "CredentialRetrievalError") \/
        botocore.access_key creds
          = Raises (External "CredentialRetrievalError"))).
Proof.
  assert (Hraise : get_aws_credentials ∅ (Some session_refresh_fails)
                   = Raises (External "CredentialRetrievalError"))
    by reflexivity.
  split; [exact Hraise|].
  exact (get_aws_credentials_raises_only_from_session ∅
           (Some session_refresh_fails) _ Hraise).
Defined.

(** X8.  A token is only ever returned from the session: when the result
    has a token other than [None], no static pair is configured and the
    three fields are what was read from the session's credentials
    object. *)
Theorem get_aws_credentials_token_only_from_session
    (settings : gmap string pyval) (SESSION : option botocore.Session)
    (c : AWSCredentials_t) :
  get_aws_credentials settings SESSION = Returns c ->
  token c <> PNone ->
  truthy (getattr settings "AWS_ACCESS_KEY_ID" PNone)
    && truthy (getattr settings "AWS_SECRET_ACCESS_KEY" PNone) = false /\
  exists session creds,
    SESSION = Some session /\
    botocore.get_credentials session = Returns (Some creds) /\
    botocore.token creds = Returns (token c) /\
    botocore.secret_key creds = Returns (secret_key c) /\
    botocore.access_key creds = Returns (access_key c).
Proof.
  unfold get_aws_credentials.
  destruct (truthy _ && truthy _).
  { intros [= <-] Htoken. now contradiction Htoken. }
  destruct SESSION as [session|].
  2:{ intros [= <-] Htoken. now contradiction Htoken. }
  destruct (botocore.get_credentials session) as [[creds|]|e'] eqn:Hget;
    cbn; intros H Htoken; try discriminate.
  - destruct (botocore.token creds) as [t|e1] eqn:Ht; cbn in H;
      [|discriminate].
    destruct (botocore.secret_key creds) as [k|e2] eqn:Hk; cbn in H;
      [|discriminate].
    destruct (botocore.access_key creds) as [a|e3] eqn:Ha; cbn in H;
      [|discriminate].
    injection H as <-.
    split; [reflexivity|].
    exists session, creds.
    split; [reflexivity|]. split; [exact Hget|].
    split; [exact Ht|]. split; [exact Hk | exact Ha].
  - injection H as <-. now contradiction Htoken.
Qed.

Lemma get_aws_credentials_token_only_from_session_witness :
  get_aws_credentials ∅ (Some session_with_credentials)
    = Returns (AWSCredentials (PStr "session-token") (PStr "session-secret")
                              (PStr "ASIASESSION")) /\
  token (AWSCredentials (PStr "session-token") (PStr "session-secret")
                        (PStr "ASIASESSION")) <> PNone /\
  truthy (getattr (∅ : gmap string pyval) "AWS_ACCESS_KEY_ID" PNone)
    && truthy (getattr (∅ : gmap string pyval) "AWS_SECRET_ACCESS_KEY" PNone)
    = false /\
  exists session creds,
    Some session_with_credentials = Some session /\
    botocore.get_credentials session = Returns (Some creds) /\
    botocore.token creds
      = Returns (token (AWSCredentials (PStr "session-token")
                          (PStr "session-secret") (PStr "ASIASESSION"))) /\
    botocore.secret_key creds
      = Returns (secret_key (AWSCredentials (PStr "session-token")
                               (PStr "session-secret") (PStr "ASIASESSION"))) /\
    botocore.access_key creds
      = Returns (access_key (AWSCredentials (PStr "session-token")
                               (PStr "session-secret") (PStr "ASIASESSION"))).
Proof.
  assert (Hret : get_aws_credentials ∅ (Some session_with_credentials)
    = Returns (AWSCredentials (PStr "session-token") (PStr "session-secret")
                              (PStr "ASIASESSION"))) by reflexivity.
  assert (Htoken :
    token (AWSCredentials (PStr "session-token") (PStr "session-secret")
                          (PStr "ASIASESSION")) <> PNone) by discriminate.
  split; [exact Hret|]. split; [exact Htoken|].
  exact (get_aws_credentials_token_only_from_session ∅
           (Some session_with_credentials) _ Hret Htoken).
Defined.

(** * Further properties of the object key *)

Lemma lstrip_id (s : string) :
  first_char s <> Some "/"%char -> lstrip "/" s = s.
Proof.
  destruct s as [|c s]; [reflexivity|].
  cbn [first_char lstrip]. intros Hc.
  destruct (char_in c "/") eqn:Hin; [|reflexivity].
  apply char_in_slash in Hin. congruence.
Qed.

Lemma rstrip_id (s : string) :
  last_char s <> Some "/"%char -> rstrip "/" s = s.
Proof.
  induction s as [|c s IH]; [reflexivity|].
  destruct s as [|a r].
  - cbn [rstrip last_char]. intros Hc.
    destruct (char_in c "/") eqn:Hin; [|reflexivity].
    apply char_in_slash in Hin. congruence.
  - intros Hlast.
    cbn [rstrip]. cbn [rstrip] in IH.
    rewrite IH by exact Hlast. reflexivity.
Qed.

Lemma strip_idempotent (s : string) :
  strip "/" (strip "/" s) = strip "/" s.
Proof.
  destruct (strip_slashes s) as (i & j & _ & Hfirst & Hlast).
  unfold strip at 1.
  rewrite (lstrip_id _ Hfirst). apply rstrip_id, Hlast.
Qed.

Lemma strip_not_root (s : string) : strip "/" s <> "/".
Proof.
  destruct (strip_slashes s) as (i & j & _ & Hfirst & _).
  intros Heq. rewrite Heq in Hfirst. now apply Hfirst.
Qed.

Lemma slashes_app (i j : nat) : slashes i +:+ slashes j = slashes (i + j).
Proof.
  induction i as [|i IH]; [reflexivity|].
  rewrite slashes_S, IH. reflexivity.
Qed.

Lemma strip_empty_only_slashes (s : string) :
  strip "/" s = "" -> exists n, s = slashes n.
Proof.
  intros Hempty.
  destruct (strip_slashes s) as (i & j & Hs & _).
  rewrite Hempty in Hs. exists (i + j).
  rewrite Hs. apply slashes_app.
Qed.

(** X9.  For a string strategy other than "/", the slashes around it do
    not matter: the strategy and the strategy with its leading and
    trailing slashes removed give the same key. *)
Theorem get_key_outer_slashes_irrelevant
    (keyStrategy fileName : string) (dest : pyval) :
  keyStrategy <> "/" ->
  get_key (KeyValue (PStr keyStrategy)) fileName dest =
  get_key (KeyValue (PStr (strip "/" keyStrategy))) fileName dest.
Proof.
  intros Hroot.
  rewrite !get_key_str, strip_idempotent.
  destruct (String.eqb_spec keyStrategy "/") as [|_]; [contradiction|].
  destruct (String.eqb_spec (strip "/" keyStrategy) "/") as [Heq|_].
  - now apply strip_not_root in Heq.
  - reflexivity.
Qed.

Lemma get_key_outer_slashes_irrelevant_witness :
  "//media/uploads/" <> "/" /\
  get_key (KeyValue (PStr "//media/uploads/")) "a.png" PNone =
  get_key (KeyValue (PStr (strip "/" "//media/uploads/"))) "a.png" PNone.
Proof.
  assert (Hroot : "//media/uploads/" <> "/") by discriminate.
  split; [exact Hroot|].
  exact (get_key_outer_slashes_irrelevant "//media/uploads/" "a.png" PNone
           Hroot).
Defined.

(** X10.  A string strategy that has a character other than a slash
    gives a key that does not start with a slash and that ends with a
    slash followed by the file name. *)
Theorem get_key_no_leading_slash
    (keyStrategy fileName : string) (dest : pyval) :
  (forall n, keyStrategy <> slashes n) ->
  exists folder,
    get_key (KeyValue (PStr keyStrategy)) fileName dest =
    Returns (PStr (folder +:+ "/" +:+ fileName)) /\
    first_char (folder +:+ "/" +:+ fileName) <> Some "/"%char /\
    last_char folder <> Some "/"%char.
Proof.
  intros Hchars.
  exists (strip "/" keyStrategy).
  destruct (strip_slashes keyStrategy) as (i & j & _ & Hfirst & Hlast).
  rewrite get_key_str.
  destruct (String.eqb_spec keyStrategy "/") as [Heq|_].
  { now contradiction (Hchars 1). }
  split; [reflexivity|]. split; [|exact Hlast].
  destruct (strip "/" keyStrategy) as [|c folder] eqn:Hstrip.
  - apply strip_empty_only_slashes in Hstrip as [n Hn].
    now contradiction (Hchars n).
  - exact Hfirst.
Qed.

Lemma get_key_no_leading_slash_witness :
  (forall n, "/uploads/imgs/" <> slashes n) /\
  exists folder,
    get_key (KeyValue (PStr "/uploads/imgs/")) "a.png" PNone =
    Returns (PStr (folder +:+ "/" +:+ "a.png")) /\
    first_char (folder +:+ "/" +:+ "a.png") <> Some "/"%char /\
    last_char folder <> Some "/"%char.
Proof.
  assert (Hchars : forall n, "/uploads/imgs/" <> slashes n)
    by (intros [|[|n]]; discriminate).
  split; [exact Hchars|].
  exact (get_key_no_leading_slash "/uploads/imgs/" "a.png" PNone Hchars).
Defined.

(** X11.  A key strategy that is neither callable nor a string ([None],
    a bool, an int, a list, a dict) makes [get_key] raise the
    [AttributeError] of the missing [strip]; no key is returned. *)
Theorem get_key_not_a_string_raises
    (v : pyval) (fileName : string) (dest : pyval) :
  (forall s, v <> PStr s) ->
  get_key (KeyValue v) fileName dest =
  Raises (AttributeError (type_name v) "strip").
Proof.
  intros Hv.
  destruct v as [|b|n|s|l|d]; try reflexivity.
  now contradiction (Hv s).
Qed.

Lemma get_key_not_a_string_raises_witness :
  (forall s, PNone <> PStr s) /\
  get_key (KeyValue PNone) "a.png" (PDict demo_imgs) =
  Raises (AttributeError (type_name PNone) "strip").
Proof.
  assert (Hv : forall s, PNone <> PStr s) by discriminate.
  split; [exact Hv|].
  exact (get_key_not_a_string_raises PNone "a.png" (PDict demo_imgs) Hv).
Defined.

(** X12.  With a callable strategy and a destination that is not a dict,
    [get_key] raises the [AttributeError] of the missing [get] whatever
    the callable is: the callable is not consulted. *)
Theorem get_key_callable_destination_not_a_dict
    (f : list pyval -> outcome pyval) (fileName : string) (dest : pyval) :
  (forall d, dest <> PDict d) ->
  get_key (KeyCallable f) fileName dest =
  Raises (AttributeError (type_name dest) "get").
Proof.
  intros Hdest.
  destruct dest as [|b|n|s|l|d]; try reflexivity.
  now contradiction (Hdest d).
Qed.

Lemma get_key_callable_destination_not_a_dict_witness :
  (forall d, PNone <> PDict d) /\
  get_key (KeyCallable record_args) "a.png" PNone =
  Raises (AttributeError (type_name PNone) "get").
Proof.
  assert (Hdest : forall d, PNone <> PDict d) by discriminate.
  split; [exact Hdest|].
  exact (get_key_callable_destination_not_a_dict record_args "a.png" PNone
           Hdest).
Defined.

(** * Further properties of the presigned URL *)

Section ProviderMore.

Variable S3Client : Type.
Variable boto3_client : ClientArgs -> outcome S3Client.
Variable generate_presigned_url : S3Client -> PresignArgs -> outcome string.

Lemma get_presigned_url_calls_found
    (settings dests d : gmap string pyval) (dest : string) (key : pyval)
    (expires_in : Z) (method_name : string) (is_oracle : bool) :
  settings !! "S3DIRECT_DESTINATIONS" = Some (PDict dests) ->
  dests !! dest = Some (PDict d) ->
  calls (get_presigned_url S3Client boto3_client generate_presigned_url
           settings dest key expires_in method_name is_oracle)
  = Boto3Client (resolved_client settings d is_oracle)
    :: match boto3_client (resolved_client settings d is_oracle) with
       | Returns _ =>
           [GeneratePresignedUrl
              (resolved_presign settings d key expires_in method_name)]
       | Raises _ => []
       end.
Proof.
  intros Hdests Hdest.
  rewrite (get_presigned_url_found _ _ _ _ _ _ _ _ _ _ _ Hdests Hdest).
  destruct (boto3_client _); reflexivity.
Qed.

Lemma destination_found_dec (settings : gmap string pyval) (dest : string) :
  (exists dests d,
      settings !! "S3DIRECT_DESTINATIONS" = Some (PDict dests) /\
      dests !! dest = Some (PDict d)) \/
  ~ (exists dests d,
        settings !! "S3DIRECT_DESTINATIONS" = Some (PDict dests) /\
        dests !! dest = Some (PDict d)).
Proof.
  destruct (settings !! "S3DIRECT_DESTINATIONS") as [[|b|n|s|l|dests]|];
    try (right; intros (dests' & d' & Heq & _); discriminate Heq).
  destruct (dests !! dest) as [[|b|n|s|l|d]|] eqn:Hdest;
    try (right; intros (dests' & d' & [= <-] & Hd'); rewrite Hdest in Hd';
         discriminate Hd').
  left. exists dests, d. split; [reflexivity | exact Hdest].
Qed.

Lemma get_presigned_url_not_found
    (settings : gmap string pyval) (dest : string) (key : pyval)
    (expires_in : Z) (method_name : string) (is_oracle : bool) :
  ~ (exists dests d,
        settings !! "S3DIRECT_DESTINATIONS" = Some (PDict dests) /\
        dests !! dest = Some (PDict d)) ->
  exists type,
    get_presigned_url S3Client boto3_client generate_presigned_url
      settings dest key expires_in method_name is_oracle
    = ([], Raises (AttributeError type "get")).
Proof.
  intros Hnot.
  unfold get_presigned_url, get_s3direct_destinations, getattr.
  destruct (settings !! "S3DIRECT_DESTINATIONS") as [[|b|n|s|l|dests]|]
    eqn:Hdests; cbn; try (eexists; reflexivity).
  destruct (dests !! dest) as [[|b|n|s|l|d]|] eqn:Hdest;
    cbn; try (eexists; reflexivity).
  contradiction Hnot. exists dests, d. split; [reflexivity | exact Hdest].
Qed.

(** X13.  The provider is called exactly when [S3DIRECT_DESTINATIONS] is
    a dict that binds the destination id to a dict.  In every other case
    (the setting unset or not a dict, the id missing, or bound to
    something that is not a dict) the call raises the [AttributeError]
    of a missing [get] with no call made. *)
Theorem get_presigned_url_reaches_provider_iff
    (settings : gmap string pyval) (dest : string) (key : pyval)
    (expires_in : Z) (method_name : string) (is_oracle : bool) :
  (calls (get_presigned_url S3Client boto3_client generate_presigned_url
            settings dest key expires_in method_name is_oracle) <> []
   <->
   exists dests d,
     settings !! "S3DIRECT_DESTINATIONS" = Some (PDict dests) /\
     dests !! dest = Some (PDict d)) /\
  (calls (get_presigned_url S3Client boto3_client generate_presigned_url
            settings dest key expires_in method_name is_oracle) = []
   ->
   exists type,
     get_presigned_url S3Client boto3_client generate_presigned_url
       settings dest key expires_in method_name is_oracle
     = ([], Raises (AttributeError type "get"))).
Proof.
  assert (Hfound : forall dests d,
    settings !! "S3DIRECT_DESTINATIONS" = Some (PDict dests) ->
    dests !! dest = Some (PDict d) ->
    calls (get_presigned_url S3Client boto3_client generate_presigned_url
             settings dest key expires_in method_name is_oracle) <> []).
  { intros dests d Hdests Hdest.
    rewrite (get_presigned_url_calls_found _ _ _ _ _ _ _ _ Hdests Hdest).
    discriminate. }
  assert (Hmissing :
    ~ (exists dests d,
          settings !! "S3DIRECT_DESTINATIONS" = Some (PDict dests) /\
          dests !! dest = Some (PDict d)) ->
    exists type,
      get_presigned_url S3Client boto3_client generate_presigned_url
        settings dest key expires_in method_name is_oracle
      = ([], Raises (AttributeError type "get")))
    by apply get_presigned_url_not_found.
  split; [split|].
  - intros Hcalls.
    destruct (destination_found_dec settings dest) as [Hyes|Hno];
      [exact Hyes|].
    exfalso. apply Hcalls.
    destruct (Hmissing Hno) as [type Heq].
    rewrite Heq. reflexivity.
  - intros (dests & d & Hdests & Hdest). exact (Hfound dests d Hdests Hdest).
  - intros Hcalls. apply Hmissing.
    intros (dests & d & Hdests & Hdest).
    exact (Hfound dests d Hdests Hdest Hcalls).
Qed.

(** X14.  In PROVIDER_NATIVE mode ([is_oracle] true) the whole outcome,
    calls and result, is the same for two settings that differ at most
    in the four "original" settings. *)
Theorem get_presigned_url_native_ignores_original
    (settings1 settings2 : gmap string pyval) (dest : string) (key : pyval)
    (expires_in : Z) (method_name : string) :
  (forall name : string,
      name <> "ORIGINAL_AWS_S3_REGION_NAME" ->
      name <> "ORIGINAL_AWS_S3_ENDPOINT_URL" ->
      name <> "ORIGINAL_AWS_ACCESS_KEY_ID" ->
      name <> "ORIGINAL_SECRET_ACCESS_KEY" ->
      settings1 !! name = settings2 !! name) ->
  get_presigned_url S3Client boto3_client generate_presigned_url
    settings1 dest key expires_in method_name true =
  get_presigned_url S3Client boto3_client generate_presigned_url
    settings2 dest key expires_in method_name true.
Proof.
  intros Hagree.
  assert (Hget : forall name dflt,
             name <> "ORIGINAL_AWS_S3_REGION_NAME" ->
             name <> "ORIGINAL_AWS_S3_ENDPOINT_URL" ->
             name <> "ORIGINAL_AWS_ACCESS_KEY_ID" ->
             name <> "ORIGINAL_SECRET_ACCESS_KEY" ->
             getattr settings1 name dflt = getattr settings2 name dflt)
    by (intros; apply getattr_agree, Hagree; assumption).
  unfold get_presigned_url, get_s3direct_destinations.
  rewrite (Hget "S3DIRECT_DESTINATIONS"),
          (Hget "AWS_ACCESS_KEY_ID"),
          (Hget "AWS_SECRET_ACCESS_KEY"),
          (Hget "AWS_STORAGE_BUCKET_NAME"),
          (Hget "AWS_S3_REGION_NAME"),
          (Hget "AWS_S3_ENDPOINT_URL") by discriminate.
  reflexivity.
Qed.

(** X15.  In PROVIDER_NATIVE mode, with the destination found, the
    client's region and endpoint are the destination's entries where it
    has them (an entry bound to [None] gives [None]) and otherwise the
    settings [AWS_S3_REGION_NAME] and [AWS_S3_ENDPOINT_URL]. *)
Theorem get_presigned_url_native_region_endpoint
    (settings dests d : gmap string pyval) (dest : string) (key : pyval)
    (expires_in : Z) (method_name : string) :
  settings !! "S3DIRECT_DESTINATIONS" = Some (PDict dests) ->
  dests !! dest = Some (PDict d) ->
  exists a,
    clients (calls (get_presigned_url S3Client boto3_client
                      generate_presigned_url
                      settings dest key expires_in method_name true)) = [a] /\
    region_name a =
      match d !! "region" with
      | Some region => region
      | None => getattr settings "AWS_S3_REGION_NAME" PNone
      end /\
    endpoint_url a =
      match d !! "endpoint" with
      | Some endpoint => endpoint
      | None => getattr settings "AWS_S3_ENDPOINT_URL" PNone
      end.
Proof.
  intros Hdests Hdest.
  exists (resolved_client settings d true).
  rewrite (get_presigned_url_calls_found _ _ _ _ _ _ _ _ Hdests Hdest).
  split; [|split].
  - destruct (boto3_client _); reflexivity.
  - cbn. destruct (d !! "region"); reflexivity.
  - cbn. destruct (d !! "endpoint"); reflexivity.
Qed.

(** X16.  With the destination found, the client is always an "s3"
    client signing with "s3v4", and the object key, the expiry and the
    method name reach the presign call as they were given: none is
    checked or changed (an expiry of zero or less included). *)
Theorem get_presigned_url_request_passed_through
    (settings dests d : gmap string pyval) (dest : string) (key : pyval)
    (expires_in : Z) (method_name : string) (is_oracle : bool) :
  settings !! "S3DIRECT_DESTINATIONS" = Some (PDict dests) ->
  dests !! dest = Some (PDict d) ->
  exists a p,
    clients (calls (get_presigned_url S3Client boto3_client
                      generate_presigned_url
                      settings dest key expires_in method_name is_oracle))
      = [a] /\
    service_name a = "s3" /\ signature_version a = "s3v4" /\
    presigns (calls (get_presigned_url S3Client boto3_client
                       generate_presigned_url
                       settings dest key expires_in method_name is_oracle))
      = match boto3_client a with
        | Returns _ => [p]
        | Raises _ => []
        end /\
    ClientMethod p = method_name /\ Key p = key /\ ExpiresIn p = expires_in.
Proof.
  intros Hdests Hdest.
  exists (resolved_client settings d is_oracle),
         (resolved_presign settings d key expires_in method_name).
  rewrite (get_presigned_url_calls_found _ _ _ _ _ _ _ _ Hdests Hdest).
  split; [destruct (boto3_client _); reflexivity|].
  split; [reflexivity|]. split; [reflexivity|].
  split; [destruct (boto3_client _); reflexivity|].
  repeat split.
Qed.

(** X17.  With the destination found, the provider is called in this
    order and no more: [boto3.client] once, then, if a client came back,
    [generate_presigned_url] once.  The result is what the last call
    gave: the URL as returned, or the exception as raised; nothing is
    caught and nothing is tried again. *)
Theorem get_presigned_url_result_is_the_providers
    (settings dests d : gmap string pyval) (dest : string) (key : pyval)
    (expires_in : Z) (method_name : string) (is_oracle : bool) :
  settings !! "S3DIRECT_DESTINATIONS" = Some (PDict dests) ->
  dests !! dest = Some (PDict d) ->
  exists a p,
    get_presigned_url S3Client boto3_client generate_presigned_url
      settings dest key expires_in method_name is_oracle
    = match boto3_client a with
      | Returns client =>
          ([Boto3Client a; GeneratePresignedUrl p],
           generate_presigned_url client p)
      | Raises e => ([Boto3Client a], Raises e)
      end.
Proof.
  intros Hdests Hdest.
  exists (resolved_client settings d is_oracle),
         (resolved_presign settings d key expires_in method_name).
  exact (get_presigned_url_found S3Client boto3_client generate_presigned_url
           settings dests d dest key expires_in method_name is_oracle
           Hdests Hdest).
Qed.

(** X18.  In PROVIDER_NATIVE mode the client and [get_aws_credentials]
    agree on the static keys: either the client gets no explicit
    credentials and [get_aws_credentials] goes on to the session as if no
    setting were there, or the client gets a pair and it is the pair
    [get_aws_credentials] returns, with no token. *)
Theorem get_presigned_url_native_credentials_match_resolver
    (settings dests d : gmap string pyval) (dest : string) (key : pyval)
    (expires_in : Z) (method_name : string)
    (SESSION : option botocore.Session) :
  settings !! "S3DIRECT_DESTINATIONS" = Some (PDict dests) ->
  dests !! dest = Some (PDict d) ->
  exists a,
    clients (calls (get_presigned_url S3Client boto3_client
                      generate_presigned_url
                      settings dest key expires_in method_name true)) = [a] /\
    ((credentials a = ∅ /\
      get_aws_credentials settings SESSION = get_aws_credentials ∅ SESSION)
     \/
     (exists accessKey secretKey,
        credentials a = {[ "aws_access_key_id" := accessKey;
                           "aws_secret_access_key" := secretKey ]} /\
        get_aws_credentials settings SESSION =
        Returns (AWSCredentials PNone secretKey accessKey))).
Proof.
  intros Hdests Hdest.
  exists (resolved_client settings d true).
  rewrite (get_presigned_url_calls_found _ _ _ _ _ _ _ _ Hdests Hdest).
  split; [destruct (boto3_client _); reflexivity|].
  unfold get_aws_credentials, resolved_client, mode_access_key,
    mode_secret_key.
  cbn [credentials].
  destruct (truthy (getattr settings "AWS_ACCESS_KEY_ID" PNone)
            && truthy (getattr settings "AWS_SECRET_ACCESS_KEY" PNone)).
  - right. eexists _, _. split; reflexivity.
  - left. split; reflexivity.
Qed.

End ProviderMore.

Lemma get_presigned_url_native_ignores_original_witness :
  (forall name : string,
      name <> "ORIGINAL_AWS_S3_REGION_NAME" ->
      name <> "ORIGINAL_AWS_S3_ENDPOINT_URL" ->
      name <> "ORIGINAL_AWS_ACCESS_KEY_ID" ->
      name <> "ORIGINAL_SECRET_ACCESS_KEY" ->
      demo_settings !! name =
      delete "ORIGINAL_AWS_ACCESS_KEY_ID"
        (<["ORIGINAL_AWS_S3_REGION_NAME" := PStr "ap-south-1"]> demo_settings)
        !! name) /\
  get_presigned_url ClientArgs demo_client demo_presign
    demo_settings "imgs" (PStr "u/a.png") 3600 "get_object" true =
  get_presigned_url ClientArgs demo_client demo_presign
    (delete "ORIGINAL_AWS_ACCESS_KEY_ID"
       (<["ORIGINAL_AWS_S3_REGION_NAME" := PStr "ap-south-1"]> demo_settings))
    "imgs" (PStr "u/a.png") 3600 "get_object" true.
Proof.
  assert (Hagree : forall name : string,
      name <> "ORIGINAL_AWS_S3_REGION_NAME" ->
      name <> "ORIGINAL_AWS_S3_ENDPOINT_URL" ->
      name <> "ORIGINAL_AWS_ACCESS_KEY_ID" ->
      name <> "ORIGINAL_SECRET_ACCESS_KEY" ->
      demo_settings !! name =
      delete "ORIGINAL_AWS_ACCESS_KEY_ID"
        (<["ORIGINAL_AWS_S3_REGION_NAME" := PStr "ap-south-1"]> demo_settings)
        !! name).
  { intros name Hr He Ha Hs.
    rewrite lookup_delete_ne by congruence.
    rewrite lookup_insert_ne by congruence.
    reflexivity. }
  split; [exact Hagree|].
  exact (get_presigned_url_native_ignores_original ClientArgs demo_client
           demo_presign _ _ "imgs" (PStr "u/a.png") 3600 "get_object"
           Hagree).
Defined.

Lemma get_presigned_url_native_region_endpoint_witness :
  demo_settings !! "S3DIRECT_DESTINATIONS" = Some (PDict demo_destinations) /\
  demo_destinations !! "imgs" = Some (PDict demo_imgs) /\
  exists a,
    clients (calls (get_presigned_url ClientArgs demo_client demo_presign
                      demo_settings "imgs" (PStr "u/a.png") 3600
                      "get_object" true)) = [a] /\
    region_name a =
      match demo_imgs !! "region" with
      | Some region => region
      | None => getattr demo_settings "AWS_S3_REGION_NAME" PNone
      end /\
    endpoint_url a =
      match demo_imgs !! "endpoint" with
      | Some endpoint => endpoint
      | None => getattr demo_settings "AWS_S3_ENDPOINT_URL" PNone
      end.
Proof.
  split; [exact demo_settings_destinations|].
  split; [exact demo_destinations_imgs|].
  exact (get_presigned_url_native_region_endpoint ClientArgs demo_client
           demo_presign demo_settings demo_destinations demo_imgs "imgs"
           (PStr "u/a.png") 3600 "get_object"
           demo_settings_destinations demo_destinations_imgs).
Defined.

Lemma get_presigned_url_request_passed_through_witness :
  demo_settings !! "S3DIRECT_DESTINATIONS" = Some (PDict demo_destinations) /\
  demo_destinations !! "imgs" = Some (PDict demo_imgs) /\
  exists a p,
    clients (calls (get_presigned_url ClientArgs demo_client demo_presign
                      demo_settings "imgs" (PInt 7) (-5) "put_object" false))
      = [a] /\
    service_name a = "s3" /\ signature_version a = "s3v4" /\
    presigns (calls (get_presigned_url ClientArgs demo_client demo_presign
                       demo_settings "imgs" (PInt 7) (-5) "put_object" false))
      = match demo_client a with
        | Returns _ => [p]
        | Raises _ => []
        end /\
    ClientMethod p = "put_object" /\ Key p = PInt 7 /\ ExpiresIn p = (-5)%Z.
Proof.
  split; [exact demo_settings_destinations|].
  split; [exact demo_destinations_imgs|].
  exact (get_presigned_url_request_passed_through ClientArgs demo_client
           demo_presign demo_settings demo_destinations demo_imgs "imgs"
           (PInt 7) (-5) "put_object" false
           demo_settings_destinations demo_destinations_imgs).
Defined.

Lemma get_presigned_url_result_is_the_providers_witness :
  demo_settings !! "S3DIRECT_DESTINATIONS" = Some (PDict demo_destinations) /\
  demo_destinations !! "imgs" = Some (PDict demo_imgs) /\
  exists a p,
    get_presigned_url ClientArgs demo_client
      (fun _ _ => Raises (External "ParamValidationError"))
      demo_settings "imgs" (PStr "u/a.png") 3600 "get_object" true
    = match demo_client a with
      | Returns client =>
          ([Boto3Client a; GeneratePresignedUrl p],
           Raises (External "ParamValidationError"))
      | Raises e => ([Boto3Client a], Raises e)
      end.
Proof.
  split; [exact demo_settings_destinations|].
  split; [exact demo_destinations_imgs|].
  exact (get_presigned_url_result_is_the_providers ClientArgs demo_client
           (fun _ _ => Raises (External "ParamValidationError"))
           demo_settings demo_destinations demo_imgs "imgs"
           (PStr "u/a.png") 3600 "get_object" true
           demo_settings_destinations demo_destinations_imgs).
Defined.

Lemma get_presigned_url_native_credentials_match_resolver_witness :
  demo_settings !! "S3DIRECT_DESTINATIONS" = Some (PDict demo_destinations) /\
  demo_destinations !! "imgs" = Some (PDict demo_imgs) /\
  exists a,
    clients (calls (get_presigned_url ClientArgs demo_client demo_presign
                      demo_settings "imgs" (PStr "u/a.png") 3600
                      "get_object" true)) = [a] /\
    ((credentials a = ∅ /\
      get_aws_credentials demo_settings (Some session_with_credentials)
      = get_aws_credentials ∅ (Some session_with_credentials))
     \/
     (exists accessKey secretKey,
        credentials a = {[ "aws_access_key_id" := accessKey;
                           "aws_secret_access_key" := secretKey ]} /\
        get_aws_credentials demo_settings (Some session_with_credentials) =
        Returns (AWSCredentials PNone secretKey accessKey))).
Proof.
  split; [exact demo_settings_destinations|].
  split; [exact demo_destinations_imgs|].
  exact (get_presigned_url_native_credentials_match_resolver ClientArgs
           demo_client demo_presign demo_settings demo_destinations demo_imgs
           "imgs" (PStr "u/a.png") 3600 "get_object"
           (Some session_with_credentials)
           demo_settings_destinations demo_destinations_imgs).
Defined.

(** X19.  [get_presigned_url] depends on the settings through ten names
    only: two settings that agree on those give the same calls and the
    same result, in either mode, whatever else they hold. *)
Theorem get_presigned_url_reads_only_its_settings
    (S3Client : Type) (boto3_client : ClientArgs -> outcome S3Client)
    (generate_presigned_url : S3Client -> PresignArgs -> outcome string)
    (settings1 settings2 : gmap string pyval) (dest : string) (key : pyval)
    (expires_in : Z) (method_name : string) (is_oracle : bool) :
  (forall name : string,
      In name presign_settings -> settings1 !! name = settings2 !! name) ->
  get_presigned_url S3Client boto3_client generate_presigned_url
    settings1 dest key expires_in method_name is_oracle =
  get_presigned_url S3Client boto3_client generate_presigned_url
    settings2 dest key expires_in method_name is_oracle.
Proof.
  intros Hagree.
  assert (Hget : forall name dflt,
             In name presign_settings ->
             getattr settings1 name dflt = getattr settings2 name dflt)
    by (intros; apply getattr_agree, Hagree; assumption).
  unfold get_presigned_url, get_s3direct_destinations.
  rewrite (Hget "S3DIRECT_DESTINATIONS"),
          (Hget "AWS_ACCESS_KEY_ID"),
          (Hget "AWS_SECRET_ACCESS_KEY"),
          (Hget "AWS_STORAGE_BUCKET_NAME"),
          (Hget "AWS_S3_REGION_NAME"),
          (Hget "AWS_S3_ENDPOINT_URL"),
          (Hget "ORIGINAL_AWS_S3_REGION_NAME"),
          (Hget "ORIGINAL_AWS_S3_ENDPOINT_URL"),
          (Hget "ORIGINAL_AWS_ACCESS_KEY_ID"),
          (Hget "ORIGINAL_SECRET_ACCESS_KEY")
    by (cbn [presign_settings In]; tauto).
  reflexivity.
Qed.

Lemma get_presigned_url_reads_only_its_settings_witness :
  (forall name : string,
      In name presign_settings ->
      demo_settings !! name =
      <["DEBUG" := PBool true]> demo_settings !! name) /\
  get_presigned_url ClientArgs demo_client demo_presign
    demo_settings "imgs" (PStr "u/a.png") 3600 "get_object" false =
  get_presigned_url ClientArgs demo_client demo_presign
    (<["DEBUG" := PBool true]> demo_settings)
    "imgs" (PStr "u/a.png") 3600 "get_object" false.
Proof.
  assert (Hagree : forall name : string,
      In name presign_settings ->
      demo_settings !! name =
      <["DEBUG" := PBool true]> demo_settings !! name).
  { intros name Hin.
    rewrite lookup_insert_ne; [reflexivity|].
    intros <-. cbn [presign_settings In] in Hin.
    repeat (destruct Hin as [Hin|Hin]; [discriminate Hin|]).
    exact Hin. }
  split; [exact Hagree|].
  exact (get_presigned_url_reads_only_its_settings ClientArgs demo_client
           demo_presign _ _ "imgs" (PStr "u/a.png") 3600 "get_object" false
           Hagree).
Defined.
